(** * flask_dance.consumer.oauth2: the OAuth 2 consumer blueprint and its session

    A shallow embedding of [src/flask_dance/consumer/oauth2.py]:
    [OAuth2Session.request], [OAuth2ConsumerBlueprint.client_id],
    [OAuth2ConsumerBlueprint.login] and [OAuth2ConsumerBlueprint.authorized].

    Python objects that the views mutate (the Flask session, the requests
    session, the token store) live in one [world] record that is threaded
    through a small state-and-exception monad; every externally visible
    effect is also appended to a trace of [event]s. *)

From Stdlib Require Import ZArith Ascii String.
From stdpp Require Import gmap strings list fin_maps.

Local Open Scope string_scope.

(** ** Python values and truthiness *)

#[local] Set Warnings "-register-all".

Inductive PyVal : Type :=
  | PyNone
  | PyBool (b : bool)
  | PyInt (z : Z)
  | PyStr (s : string)
  | PyList (l : list PyVal).

(** [v == False]: [False] itself and the number zero, which Python's
    numeric tower identifies with it; [None], [""], [[]] are falsy but
    do not compare equal to [False]. *)
Definition py_eq_False (v : PyVal) : bool :=
  match v with
  | PyBool b => negb b
  | PyInt z => (z =? 0)%Z
  | _ => false
  end.

(** Truthiness of an optional string: the test [if x:] where [x] is
    [None] or a [str]. *)
Definition str_truthy (o : option string) : bool :=
  match o with
  | Some s => negb (String.eqb s "")
  | None => false
  end.

(** [a or b] on optional strings. *)
Definition str_or (a : option string) (b : string) : string :=
  match a with
  | Some s => if String.eqb s "" then b else s
  | None => b
  end.

(** ** URLs

    [URLObject] is a [str] subclass whose accessors re-split the text on
    every use, with [urlsplit] of [urllib.parse].  The functions of this
    module work on the text in the same way and follow [urllib.parse]:
    [urlsplit] cuts a reference into its five components, [urlunsplit]
    glues them back, [urljoin] resolves one reference against another.
    A text is taken as a sequence of code points below 256. *)

Module URL.

Record SplitResult : Type := mkSplit {
  scheme : string;
  netloc : string;
  path : string;
  query : string;
  fragment : string
}.

(** What [urlparse] returns: the path of [urlsplit] cut into the path
    proper and the parameters of its last segment. *)
Record ParseResult : Type := mkParse {
  p_scheme : string;
  p_netloc : string;
  p_path : string;
  p_params : string;
  p_query : string;
  p_fragment : string
}.

(** [break p s]: the longest prefix of [s] without a character satisfying
    [p], and what follows it (starting at that character). *)
Fixpoint break (p : ascii -> bool) (s : string) : string * string :=
  match s with
  | EmptyString => (EmptyString, EmptyString)
  | String c r =>
      if p c then (EmptyString, s)
      else let '(a, b) := break p r in (String c a, b)
  end.

Definition tail (s : string) : string :=
  match s with EmptyString => EmptyString | String _ r => r end.

Definition is_char (c : ascii) : ascii -> bool := Ascii.eqb c.

Definition is_alpha (c : ascii) : bool :=
  let n := nat_of_ascii c in
  (((65 <=? n) && (n <=? 90)) || ((97 <=? n) && (n <=? 122)))%nat.

Definition is_digit (c : ascii) : bool :=
  let n := nat_of_ascii c in ((48 <=? n) && (n <=? 57))%nat.

Definition is_scheme_char (c : ascii) : bool :=
  is_alpha c || is_digit c || is_char "+" c || is_char "-" c || is_char "." c.

Fixpoint all_chars (p : ascii -> bool) (s : string) : bool :=
  match s with
  | EmptyString => true
  | String c r => p c && all_chars p r
  end.

Definition nonempty (s : string) : bool := negb (String.eqb s "").

Definition starts_with_slashes (s : string) : bool :=
  match s with
  | String "/" (String "/" _) => true
  | _ => false
  end.

Definition is_netloc_end (c : ascii) : bool :=
  is_char "/" c || is_char "?" c || is_char "#" c.

(** [_WHATWG_C0_CONTROL_OR_SPACE]: the characters up to the space. *)
Definition is_c0_control_or_space (c : ascii) : bool :=
  (nat_of_ascii c <=? 32)%nat.

(** [_UNSAFE_URL_BYTES_TO_REMOVE]: tab, carriage return, line feed. *)
Definition is_unsafe_byte (c : ascii) : bool :=
  is_char "009" c || is_char "013" c || is_char "010" c.

(** [s.lstrip(chars)] *)
Fixpoint lstrip (p : ascii -> bool) (s : string) : string :=
  match s with
  | EmptyString => EmptyString
  | String c r => if p c then lstrip p r else s
  end.

(** [s.strip(chars)] *)
Definition strip (p : ascii -> bool) (s : string) : string :=
  String.rev (lstrip p (String.rev (lstrip p s))).

(** [s.replace(b, "")] for every [b] satisfying [p]. *)
Fixpoint remove (p : ascii -> bool) (s : string) : string :=
  match s with
  | EmptyString => EmptyString
  | String c r => if p c then remove p r else String c (remove p r)
  end.

Definition lower_char (c : ascii) : ascii :=
  let n := nat_of_ascii c in
  if ((65 <=? n) && (n <=? 90))%nat then ascii_of_nat (n + 32) else c.

(** [s.lower()], on a text of scheme characters. *)
Fixpoint lower (s : string) : string :=
  match s with
  | EmptyString => EmptyString
  | String c r => String (lower_char c) (lower r)
  end.

(** [c in s] *)
Fixpoint contains (c : ascii) (s : string) : bool :=
  match s with
  | EmptyString => false
  | String d r => Ascii.eqb c d || contains c r
  end.

Definition first_is_alpha (s : string) : bool :=
  match s with
  | EmptyString => false
  | String c _ => is_alpha c
  end.

(** [urlsplit(url, scheme)], with a default scheme: what it returns when
    it returns.  The text is rid of leading control characters and
    spaces and of tabs and line ends; a scheme is a letter followed by
    scheme characters up to the first colon, and is put in lower case. *)
Definition urlsplit_default (url dflt : string) : SplitResult :=
  let url := remove is_unsafe_byte (lstrip is_c0_control_or_space url) in
  let dflt := remove is_unsafe_byte (strip is_c0_control_or_space dflt) in
  let '(pre, rest) := break (is_char ":") url in
  let '(sch, url1) :=
    if nonempty rest && first_is_alpha url && all_chars is_scheme_char pre
    then (lower pre, tail rest) else (dflt, url) in
  let '(nl, url2) :=
    if starts_with_slashes url1
    then break is_netloc_end (tail (tail url1)) else ("", url1) in
  let '(url3, frag) := break (is_char "#") url2 in
  let '(pth, qry) := break (is_char "?") url3 in
  mkSplit sch nl pth (tail qry) (tail frag).

(** [urlsplit(url)] *)
Definition urlsplit (url : string) : SplitResult := urlsplit_default url "".

(** *** When [urlsplit] raises [ValueError] *)

Definition brackets_unbalanced (netloc : string) : bool :=
  (contains "[" netloc && negb (contains "]" netloc))
  || (contains "]" netloc && negb (contains "[" netloc)).

(** [s.rpartition(c)[2]]: what follows the last [c], all of [s] when
    there is none. *)
Fixpoint after_last (c : ascii) (s : string) : string :=
  match s with
  | EmptyString => EmptyString
  | String d r =>
      if contains c r then after_last c r
      else if Ascii.eqb c d then r else s
  end.

Definition is_hex (c : ascii) : bool :=
  let n := nat_of_ascii c in
  is_digit c || (((65 <=? n) && (n <=? 70)) || ((97 <=? n) && (n <=? 102)))%nat.

(** The pattern of an IPvFuture address, [v], hexadecimal digits, a
    dot, something: [re.match(r"\Av[a-fA-F0-9]+\..+\Z", hostname)]. *)
Definition ipvfuture_match (hostname : string) : bool :=
  match hostname with
  | String "v" r =>
      let '(hex, rest) := break (fun c => negb (is_hex c)) r in
      nonempty hex &&
      match rest with
      | String "." after => nonempty after
      | _ => false
      end
  | _ => false
  end.

Section Checks.

(** [ipaddress.ip_address(hostname)] returns an IPv6 address (it raises
    on anything that is no address, and an IPv4 address is refused in
    brackets). *)
Variable is_ipv6_address : string -> bool.

(** [_check_bracketed_host] raises. *)
Definition bracketed_host_invalid (hostname : string) : bool :=
  if String.prefix "v" hostname then negb (ipvfuture_match hostname)
  else negb (is_ipv6_address hostname).

(** [_check_bracketed_netloc] raises. *)
Definition bracketed_netloc_invalid (netloc : string) : bool :=
  let hostname_and_port := after_last "@" netloc in
  let '(before_bracket, rest) := break (is_char "[") hostname_and_port in
  if nonempty rest then
    if nonempty before_bracket then true
    else
      let '(hostname, rest') := break (is_char "]") (tail rest) in
      let port := tail rest' in
      if nonempty port && negb (String.prefix ":" port) then true
      else bracketed_host_invalid hostname
  else
    let '(hostname, _) := break (is_char ":") hostname_and_port in
    bracketed_host_invalid hostname.

(** The checks that [urlsplit] makes on the network location.  (On a
    text of code points below 256 the check of [_checknetloc] never
    fails: none of them normalises to a delimiter.) *)
Definition netloc_raises (netloc : string) : bool :=
  brackets_unbalanced netloc
  || (contains "[" netloc && contains "]" netloc
      && bracketed_netloc_invalid netloc).

(** [urlsplit(url)] raises [ValueError]. *)
Definition urlsplit_raises (url : string) : bool :=
  netloc_raises (netloc (urlsplit url)).

End Checks.

Definition uses_relative : list string :=
  [""; "ftp"; "http"; "gopher"; "nntp"; "imap";
   "wais"; "file"; "https"; "shttp"; "mms";
   "prospero"; "rtsp"; "rtspu"; "sftp";
   "svn"; "svn+ssh"; "ws"; "wss"].

Definition uses_netloc : list string :=
  [""; "ftp"; "http"; "gopher"; "nntp"; "telnet";
   "imap"; "wais"; "file"; "mms"; "https"; "shttp";
   "snews"; "prospero"; "rtsp"; "rtspu"; "rsync";
   "svn"; "svn+ssh"; "sftp"; "nfs"; "git"; "git+ssh";
   "ws"; "wss"].

Definition uses_params : list string :=
  [""; "ftp"; "hdl"; "prospero"; "http"; "imap";
   "https"; "shttp"; "rtsp"; "rtspu"; "sip"; "sips";
   "mms"; "sftp"; "tel"].

(** [s in l] *)
Definition among (s : string) (l : list string) : bool :=
  existsb (String.eqb s) l.

Definition urlunsplit (r : SplitResult) : string :=
  let url := path r in
  let url :=
    if nonempty (netloc r)
       || (nonempty (scheme r)
           && existsb (String.eqb (scheme r)) uses_netloc
           && negb (starts_with_slashes url))
    then "//" ++ netloc r ++
         (if nonempty url && negb (String.prefix "/" url)
          then "/" ++ url else url)
    else url in
  let url := if nonempty (scheme r) then scheme r ++ ":" ++ url else url in
  let url := if nonempty (query r) then url ++ "?" ++ query r else url in
  if nonempty (fragment r) then url ++ "#" ++ fragment r else url.

(** [urlunparse] *)
Definition urlunparse (r : ParseResult) : string :=
  let url :=
    if nonempty (p_params r) then p_path r ++ ";" ++ p_params r
    else p_path r in
  urlunsplit (mkSplit (p_scheme r) (p_netloc r) url (p_query r) (p_fragment r)).

(** [url] cut at the last slash: what precedes it, and the rest from
    that slash on; nothing when it has no slash. *)
Fixpoint rbreak_slash (url : string) : option (string * string) :=
  match url with
  | EmptyString => None
  | String c r =>
      match rbreak_slash r with
      | Some (a, b) => Some (String c a, b)
      | None => if is_char "/" c then Some (EmptyString, url) else None
      end
  end.

(** [s[:-1]] *)
Fixpoint all_but_last (s : string) : string :=
  match s with
  | EmptyString => EmptyString
  | String c EmptyString => EmptyString
  | String c r => String c (all_but_last r)
  end.

(** [_splitparams]: the parameters follow the first semicolon of the
    last segment. *)
Definition splitparams (url : string) : string * string :=
  match rbreak_slash url with
  | Some (head, last_part) =>
      let '(a, b) := break (is_char ";") last_part in
      if nonempty b then (head ++ a, tail b) else (url, "")
  | None =>
      let '(a, b) := break (is_char ";") url in
      if nonempty b then (a, tail b) else (all_but_last url, url)
  end.

(** [urlparse(url, scheme)], what it returns when it returns. *)
Definition urlparse_default (url dflt : string) : ParseResult :=
  let r := urlsplit_default url dflt in
  let '(url', params) :=
    if among (scheme r) uses_params && contains ";" (path r)
    then splitparams (path r) else (path r, "") in
  mkParse (scheme r) (netloc r) url' params (query r) (fragment r).

Definition with_scheme (u s : string) : string :=
  let r := urlsplit u in
  urlunsplit (mkSplit s (netloc r) (path r) (query r) (fragment r)).

Definition with_netloc (u n : string) : string :=
  let r := urlsplit u in
  urlunsplit (mkSplit (scheme r) n (path r) (query r) (fragment r)).

Definition with_path (u p : string) : string :=
  let r := urlsplit u in
  urlunsplit (mkSplit (scheme r) (netloc r) p (query r) (fragment r)).

Definition with_query (u q : string) : string :=
  let r := urlsplit u in
  urlunsplit (mkSplit (scheme r) (netloc r) (path r) q (fragment r)).

Definition without_fragment (u : string) : string :=
  let r := urlsplit u in
  urlunsplit (mkSplit (scheme r) (netloc r) (path r) (query r) "").

(** *** Path resolution (RFC 3986, section 5.2) *)

(** [s.split("/")] *)
Fixpoint split_slash (s : string) : list string :=
  match s with
  | EmptyString => [EmptyString]
  | String c r =>
      if is_char "/" c then EmptyString :: split_slash r
      else match split_slash r with
           | [] => [String c EmptyString]
           | h :: t => String c h :: t
           end
  end.

(** ["/".join(l)] *)
Fixpoint join_slash (l : list string) : string :=
  match l with
  | [] => ""
  | [x] => x
  | x :: r => x ++ "/" ++ join_slash r
  end.

(** The base path without its last segment when that one is not empty:
    the last item is a file, not a directory. *)
Definition base_parts (bpath : string) : list string :=
  let parts := split_slash bpath in
  match last parts with
  | Some "" => parts
  | _ => removelast parts
  end.

(** [segments[1:-1] = filter(None, segments[1:-1])] *)
Definition drop_inner_empty (segments : list string) : list string :=
  match segments with
  | [] => []
  | h :: t =>
      match last t with
      | Some z => h :: (List.filter nonempty (removelast t) ++ [z])%list
      | None => [h]
      end
  end.

Fixpoint resolve_dots (segments resolved : list string) : list string :=
  match segments with
  | [] => resolved
  | seg :: r =>
      if String.eqb seg ".." then resolve_dots r (removelast resolved)
      else if String.eqb seg "." then resolve_dots r resolved
      else resolve_dots r (resolved ++ [seg])%list
  end.

(** The path part of [urljoin]: the path [rel], not empty, resolved
    against the path [bpath]. *)
Definition resolve_path (bpath rel : string) : string :=
  let segments :=
    if String.prefix "/" rel then split_slash rel
    else drop_inner_empty (base_parts bpath ++ split_slash rel)%list in
  let resolved := resolve_dots segments [] in
  let resolved :=
    match last segments with
    | Some seg =>
        if String.eqb seg "." || String.eqb seg ".."
        then (resolved ++ [""])%list else resolved
    | None => resolved
    end in
  let joined := join_slash resolved in
  if nonempty joined then joined else "/".

Section Join.

Variable is_ipv6_address : string -> bool.

(** [urljoin(base, url)]; [None] stands for [ValueError]. *)
Definition urljoin (base url : string) : option string :=
  if negb (nonempty base) then Some url
  else if negb (nonempty url) then Some base
  else if urlsplit_raises is_ipv6_address base then None
  else
    let b := urlparse_default base "" in
    if urlsplit_raises is_ipv6_address url then None
    else
      let u := urlparse_default url (p_scheme b) in
      if negb (String.eqb (p_scheme u) (p_scheme b))
         || negb (among (p_scheme u) uses_relative)
      then Some url
      else if among (p_scheme u) uses_netloc && nonempty (p_netloc u)
      then Some (urlunparse u)
      else
        let netloc :=
          if among (p_scheme u) uses_netloc then p_netloc b else p_netloc u in
        if negb (nonempty (p_path u)) && negb (nonempty (p_params u))
        then Some (urlunparse
                     (mkParse (p_scheme u) netloc (p_path b) (p_params b)
                        (if nonempty (p_query u) then p_query u else p_query b)
                        (p_fragment u)))
        else Some (urlunparse
                     (mkParse (p_scheme u) netloc
                        (resolve_path (p_path b) (p_path u))
                        (p_params u) (p_query u) (p_fragment u))).

End Join.

(** An absolute URL is one that carries a scheme. *)
Definition is_absolute (u : string) : bool := nonempty (scheme (urlsplit u)).

End URL.


(** ** Data model *)

(** A token is the dict the provider returns. *)
Abbreviation Token := (gmap string PyVal).

(** The ambient [flask.request]. *)
Record Request : Type := mkRequest {
  req_args : gmap string string;
  req_headers : gmap string string;
  req_url : string;
  req_is_secure : bool
}.

(** [request.headers.get(name, dflt) == expected]; the header names are
    kept in the spelling under which the views ask for them. *)
Definition header_is (r : Request) (name dflt expected : string) : bool :=
  String.eqb (default dflt (req_headers r !! name)) expected.

(** [session._client], the oauthlib client object. *)
Record WebApplicationClient : Type := mkClient {
  wc_client_id : option string;
  wc_token : option Token;
  wc_access_token : option PyVal
}.

(** Where [OAuth2Session.new_state] takes a state from: the session keeps
    [state or generate_token], a fixed text or the generator. *)
Inductive StateSource : Type :=
  | FixedState (s : string)
  | Generator.

(** The fields of an [OAuth2Session] instance that the blueprint reads
    or writes. *)
Record OAuth2Session : Type := mkSession {
  sess_client_id : option string;
  sess__client : WebApplicationClient;
  sess_state : StateSource;
  sess__state : option string;
  sess_redirect_uri : option string;
  sess_scope : option (list string);
  sess_token : option Token;
  sess_base_url : string
}.

(** The attributes [OAuth2ConsumerBlueprint.__init__] stores on the
    blueprint itself; none of them is assigned afterwards. *)
Record OAuth2ConsumerBlueprint : Type := mkBlueprint {
  bp_name : string;
  bp_client_secret : option string;
  bp_state : option string;
  bp_authorization_url : option string;
  bp_authorization_url_params : gmap string string;
  bp_token_url : option string;
  bp_token_url_params : gmap string string;
  bp_redirect_url : option string;
  bp_redirect_to : option string
}.

(** Arguments of [flask.url_for]. *)
Record UrlForArgs : Type := mkUrlFor {
  uf_endpoint : string;
  uf_next : option string;
  uf_external : bool;
  uf_scheme : option string
}.

(** Arguments of [session.fetch_token], with the [_state] the session
    holds at the time of the call (the library checks the provider's
    echo against it). *)
Record FetchTokenArgs : Type := mkFetch {
  ft_token_url : option string;
  ft_authorization_response : string;
  ft_client_secret : option string;
  ft_params : gmap string string;
  ft_state : option string
}.

(** Arguments of the oauthlib client's [prepare_request_uri]. *)
Record PrepareArgs : Type := mkPrepare {
  pr_url : option string;
  pr_redirect_uri : option string;
  pr_scope : option (list string);
  pr_state : string;
  pr_params : gmap string string
}.

(** Observable effects, in the order in which they happen. *)
Inductive event : Type :=
  | LogWarning (error : string) (error_description error_uri : option string)
  | OAuthErrorSent (error : string) (error_description error_uri : option string)
  | SessionSet (key value : string)
  | SessionDel (key : string)
  | FetchToken (a : FetchTokenArgs)
  | OAuthAuthorizedSent (token : Token)
  | TokenSet (token : Token).

(** Exceptions that leave a view. *)
Inductive exn : Type :=
  | KeyError (key : string)
  | ExchangeError (payload : string)
  | ValueError.

Inductive outcome (A : Type) : Type :=
  | Ok (a : A)
  | Raise (e : exn).
Arguments Ok {A} a.
Arguments Raise {A} e.


(** *** [outcome] as a monad *)

#[global] Instance outcome_ret : MRet outcome := fun A a => Ok a.

#[global] Instance outcome_bind : MBind outcome := fun A B f m =>
  match m with
  | Ok a => f a
  | Raise e => Raise e
  end.

(** ** [URLObject]

    A [URLObject] is a [str]; each of its properties and methods splits
    the text anew with [urlsplit], and so raises [ValueError] when
    [urlsplit] does. *)

Module URLObject.

Section Checked.

(** [ipaddress.ip_address(hostname)] returns an IPv6 address. *)
Variable is_ipv6_address : string -> bool.

(** [urlsplit(self)] *)
Definition split (self : string) : outcome URL.SplitResult :=
  if URL.urlsplit_raises is_ipv6_address self then Raise ValueError
  else Ok (URL.urlsplit self).

Definition with_scheme (self scheme : string) : outcome string :=
  _ ← split self; Ok (URL.with_scheme self scheme).

Definition with_netloc (self netloc : string) : outcome string :=
  _ ← split self; Ok (URL.with_netloc self netloc).

Definition with_path (self path : string) : outcome string :=
  _ ← split self; Ok (URL.with_path self path).

Definition with_query (self query : string) : outcome string :=
  _ ← split self; Ok (URL.with_query self query).

Definition without_fragment (self : string) : outcome string :=
  _ ← split self; Ok (URL.without_fragment self).

(** [URLPath.relative]: [urljoin] on the two paths. *)
Definition path_relative (self rel_path : string) : outcome string :=
  match URL.urljoin is_ipv6_address self rel_path with
  | Some p => Ok p
  | None => Raise ValueError
  end.

(** [URLObject.relative]: the properties of [other] are examined from
    left to right; the first one that [other] carries decides how much of
    [self] is kept. *)
Definition relative (self other : string) : outcome string :=
  o ← split other;
  if URL.nonempty (URL.scheme o) then Ok other
  else if URL.nonempty (URL.netloc o) then
    b ← split self;
    with_scheme other (URL.scheme b)
  else if URL.nonempty (URL.path o) then
    b ← split self;
    u ← with_scheme other (URL.scheme b);
    u ← with_netloc u (URL.netloc b);
    p ← path_relative (URL.path b) (URL.path o);
    with_path u p
  else if URL.nonempty (URL.query o) then
    b ← split self;
    u ← with_scheme other (URL.scheme b);
    u ← with_netloc u (URL.netloc b);
    with_path u (URL.path b)
  else if URL.nonempty (URL.fragment o) then
    b ← split self;
    u ← with_scheme other (URL.scheme b);
    u ← with_netloc u (URL.netloc b);
    u ← with_path u (URL.path b);
    with_query u (URL.query b)
  else without_fragment self.

End Checked.

End URLObject.

(** What a view returns: [flask.redirect(location)]. *)
Inductive Response : Type :=
  | Redirect (location : string).

(** Everything a view can change. *)
Record world : Type := mkWorld {
  flask_session : gmap string string;
  session : OAuth2Session;
  token_storage : option Token;
  rng : nat;
  trace : list event
}.

(** ** The monad of views: state with exceptions

    An exception keeps the state reached so far, as a Python exception
    keeps the mutations that were made before it was raised. *)

Definition M (A : Type) : Type := world -> outcome A * world.

#[global] Instance M_ret : MRet M := fun A a w => (Ok a, w).

#[global] Instance M_bind : MBind M := fun A B f m w =>
  match m w with
  | (Ok a, w') => f a w'
  | (Raise e, w') => (Raise e, w')
  end.

Definition raise {A : Type} (e : exn) : M A := fun w => (Raise e, w).

Definition get_world : M world := fun w => (Ok w, w).

Definition modify (f : world -> world) : M unit := fun w => (Ok tt, f w).

Definition emit (e : event) : M unit :=
  modify (fun w => mkWorld (flask_session w) (session w) (token_storage w)
                           (rng w) (trace w ++ [e])%list).

Definition set_flask_session (m : gmap string string) (w : world) : world :=
  mkWorld m (session w) (token_storage w) (rng w) (trace w).

Definition set_session (s : OAuth2Session) (w : world) : world :=
  mkWorld (flask_session w) s (token_storage w) (rng w) (trace w).

Definition set_token_storage (t : option Token) (w : world) : world :=
  mkWorld (flask_session w) (session w) t (rng w) (trace w).

Definition set_rng (n : nat) (w : world) : world :=
  mkWorld (flask_session w) (session w) (token_storage w) n (trace w).

(** *** [flask.session], a dict *)

(** [flask.session[key]] *)
Definition flask_session_getitem (key : string) : M string :=
  w ← get_world;
  match flask_session w !! key with
  | Some v => mret v
  | None => raise (KeyError key)
  end.

(** [flask.session[key] = value] *)
Definition flask_session_setitem (key value : string) : M unit :=
  _ ← modify (fun w => set_flask_session (<[key := value]> (flask_session w)) w);
  emit (SessionSet key value).

(** [del flask.session[key]] *)
Definition flask_session_delitem (key : string) : M unit :=
  w ← get_world;
  match flask_session w !! key with
  | Some _ =>
      _ ← modify (fun w => set_flask_session (delete key (flask_session w)) w);
      emit (SessionDel key)
  | None => raise (KeyError key)
  end.

(** *** Attribute writes on the session object *)

Definition with_client_id (v : option string) (s : OAuth2Session) : OAuth2Session :=
  mkSession v (sess__client s) (sess_state s) (sess__state s)
            (sess_redirect_uri s) (sess_scope s) (sess_token s) (sess_base_url s).

Definition with__client (c : WebApplicationClient) (s : OAuth2Session) : OAuth2Session :=
  mkSession (sess_client_id s) c (sess_state s) (sess__state s)
            (sess_redirect_uri s) (sess_scope s) (sess_token s) (sess_base_url s).

Definition with__state (v : option string) (s : OAuth2Session) : OAuth2Session :=
  mkSession (sess_client_id s) (sess__client s) (sess_state s) v
            (sess_redirect_uri s) (sess_scope s) (sess_token s) (sess_base_url s).

Definition with_redirect_uri (v : option string) (s : OAuth2Session) : OAuth2Session :=
  mkSession (sess_client_id s) (sess__client s) (sess_state s) (sess__state s)
            v (sess_scope s) (sess_token s) (sess_base_url s).

Definition with_token (v : option Token) (s : OAuth2Session) : OAuth2Session :=
  mkSession (sess_client_id s) (sess__client s) (sess_state s) (sess__state s)
            (sess_redirect_uri s) (sess_scope s) v (sess_base_url s).

Definition modify_session (f : OAuth2Session -> OAuth2Session) : M unit :=
  modify (fun w => set_session (f (session w)) w).

(** ** [OAuth2Session] *)

(** The call that [OAuth2Session.request] hands to its superclass. *)
Record SuperRequest : Type := mkSuperRequest {
  sr_method : string;
  sr_url : string
}.

(** [OAuth2Session.request]: [self.base_url] is a [URLObject], truthy
    when its text is not empty; [ValueError] is what [URLObject.relative]
    raises on a text that [urlsplit] refuses. *)
Definition request (is_ipv6_address : string -> bool)
    (self : OAuth2Session) (method url : string) : outcome SuperRequest :=
  url ← (if URL.nonempty (sess_base_url self)
         then URLObject.relative is_ipv6_address (sess_base_url self) url
         else Ok url);
  Ok (mkSuperRequest method url).

(** [bool(token)] for a dict. *)
Definition dict_truthy (t : Token) : bool := negb (Nat.eqb (size t) 0).

Definition token_truthy (o : option Token) : bool :=
  match o with
  | Some t => dict_truthy t
  | None => false
  end.

(** Modelled from the spec: the [authorized] property of the session,
    which is not defined in [oauth2.py] ([flask_dance.consumer.requests],
    which the tests import it from, is not part of the sources at hand).
    The spec: true iff a non-empty token is currently loaded. *)
Definition OAuth2Session_authorized (self : OAuth2Session) : bool :=
  token_truthy (sess_token self).

(** ** [OAuth2ConsumerBlueprint] *)

(** The [client_id] property: the getter. *)
Definition client_id (w : world) : option string :=
  sess_client_id (session w).

(** The [client_id] property: the setter. *)
Definition set_client_id (value : option string) : M unit :=
  _ ← modify_session (with_client_id value);
  modify_session (fun s =>
    with__client (mkClient value (wc_token (sess__client s))
                           (wc_access_token (sess__client s))) s).

(** Modelled from the spec: the getter of the blueprint's [token]
    property, defined in [flask_dance/consumer/base.py], which is not part
    of the sources at hand.  The spec: read from TokenStore. *)
Definition blueprint_token : M (option Token) :=
  w ← get_world; mret (token_storage w).

(** Modelled from the spec: the setter of the blueprint's [token]
    property ([self.token = token]), defined in
    [flask_dance/consumer/base.py], which is not part of the sources at
    hand.  The spec: [set_token] writes through to TokenStore. *)
Definition set_token (token : Token) : M unit :=
  _ ← modify (set_token_storage (Some token));
  emit (TokenSet token).

(** [OAuth2ConsumerBlueprint.load_token] *)
Definition load_token : M unit :=
  token ← blueprint_token;
  _ ← modify_session (with_token token);
  _ ← modify_session (fun s =>
        with__client (mkClient (wc_client_id (sess__client s)) token
                               (wc_access_token (sess__client s))) s);
  if token_truthy token
  then modify_session (fun s =>
        with__client (mkClient (wc_client_id (sess__client s))
                               (wc_token (sess__client s))
                               (token ≫= (.!! "access_token"))) s)
  else mret tt.

(** ["{bp.name}_oauth_state".format(bp=self)] *)
Definition state_key (bp : OAuth2ConsumerBlueprint) : string :=
  bp_name bp ++ "_oauth_state".

(** [any(ret == False for func, ret in results)] *)
Definition any_veto (results : list (nat * PyVal)) : bool :=
  existsb (fun '(_, ret) => py_eq_False ret) results.

(** The oauthlib client after it has parsed a token response: the
    token is kept whole, and its [access_token], when it has one,
    becomes the client's. *)
Definition populated_client (c : WebApplicationClient) (token : Token)
  : WebApplicationClient :=
  mkClient (wc_client_id c) (Some token)
           (match token !! "access_token" with
            | Some v => Some v
            | None => wc_access_token c
            end).

Section Views.

(** The collaborators of the two views. *)

(** [flask.url_for], the application's URL map. *)
Variable url_for : UrlForArgs -> string.
(** The provider's answer to the token request that
    [session.fetch_token] sends, or the failure of the exchange. *)
Variable token_response : FetchTokenArgs -> outcome Token.
(** [oauthlib.common.generate_token], by the number of the draw. *)
Variable generate_token : nat -> string.
(** The authorization URL that the oauthlib client builds. *)
Variable prepare_request_uri : PrepareArgs -> string.
(** The receivers connected to [oauth_authorized]; [None] when signals
    are not available, in which case [send] returns [None]. *)
Variable oauth_authorized_receivers : option (list (Token -> PyVal)).

(** [oauth_authorized.send(self, token=token)]: every receiver is called
    with the token, and the results come back paired with the receivers
    (here: their positions). *)
Definition oauth_authorized_send (token : Token)
  : M (option (list (nat * PyVal))) :=
  _ ← emit (OAuthAuthorizedSent token);
  mret ((fun rs => imap (fun i f => (i, f token)) rs)
          <$> oauth_authorized_receivers).

(** [oauth_error.send(self, error=..., error_description=..., error_uri=...)] *)
Definition oauth_error_send (error : string) (error_desc error_uri : option string)
  : M unit :=
  emit (OAuthErrorSent error error_desc error_uri).

(** [log.warning("OAuth 2 authorization error: ...", ...)] *)
Definition log_warning (error : string) (error_desc error_uri : option string)
  : M unit :=
  emit (LogWarning error error_desc error_uri).

(** [OAuth2Session.new_state] of requests_oauthlib: calls [self.state]
    when it is the generator, keeps it when it is a text. *)
Definition new_state : M string :=
  w ← get_world;
  match sess_state (session w) with
  | Generator =>
      let st := generate_token (rng w) in
      _ ← modify (set_rng (S (rng w)));
      _ ← modify_session (with__state (Some st));
      mret st
  | FixedState st =>
      _ ← modify_session (with__state (Some st));
      mret st
  end.

(** [OAuth2Session.authorization_url] of requests_oauthlib:
    [state = state or self.new_state()], then the URL is prepared with
    the session's redirect URI and scope. *)
Definition session_authorization_url (url state : option string)
    (kwargs : gmap string string) : M (string * string) :=
  state ← (if str_truthy state then mret (str_or state "") else new_state);
  w ← get_world;
  mret (prepare_request_uri
          (mkPrepare url (sess_redirect_uri (session w))
                     (sess_scope (session w)) state kwargs),
        state).

(** [OAuth2Session.fetch_token] of requests_oauthlib: one exchange with
    the provider; its token becomes the token of the session's client,
    with the attributes taken from it, and the session's token. *)
Definition session_fetch_token (token_url : option string)
    (authorization_response : string) (client_secret : option string)
    (kwargs : gmap string string) : M Token :=
  w ← get_world;
  let a := mkFetch token_url authorization_response client_secret kwargs
                   (sess__state (session w)) in
  _ ← emit (FetchToken a);
  match token_response a with
  | Ok token =>
      _ ← modify_session (fun s =>
            with__client (populated_client (sess__client s) token) s);
      _ ← modify_session (with_token (Some token));
      mret token
  | Raise e => raise e
  end.

(** [OAuth2ConsumerBlueprint.login] *)
Definition login (self : OAuth2ConsumerBlueprint) (req : Request) : M Response :=
  let secure :=
    req_is_secure req || header_is req "X-Forwarded-Proto" "http" "https" in
  _ ← modify_session (with_redirect_uri (Some (url_for
        (mkUrlFor ".authorized" (req_args req !! "next") true
                  (Some (if secure then "https" else "http"))))));
  '(url, state) ← session_authorization_url
        (bp_authorization_url self) (bp_state self)
        (bp_authorization_url_params self);
  let state_key := state_key self in
  _ ← flask_session_setitem state_key state;
  mret (Redirect url).

(** Lines 194 to 201 of [authorized]: the choice of [next_url]. *)
Definition next_url (self : OAuth2ConsumerBlueprint) (req : Request) : string :=
  match req_args req !! "next" with
  | Some n => n
  | None =>
      if str_truthy (bp_redirect_url self) then str_or (bp_redirect_url self) ""
      else if str_truthy (bp_redirect_to self)
      then url_for (mkUrlFor (str_or (bp_redirect_to self) "") None false None)
      else "/"
  end.

(** Lines 221 to 223 of [authorized]: the authorization response handed
    to the exchange is the request URL, with the scheme forced to https
    when a proxy in front says so. *)
Definition authorization_response (req : Request) : string :=
  let url := req_url req in
  if header_is req "X-Forwarded-Proto" "http" "https"
  then URL.with_scheme url "https" else url.

(** [OAuth2ConsumerBlueprint.authorized] *)
Definition authorized (self : OAuth2ConsumerBlueprint) (req : Request) : M Response :=
  let next_url := next_url self req in
  (* check for error in request args *)
  let error := req_args req !! "error" in
  if str_truthy error then
    let error_desc := req_args req !! "error_description" in
    let error_uri := req_args req !! "error_uri" in
    _ ← log_warning (str_or error "") error_desc error_uri;
    _ ← oauth_error_send (str_or error "") error_desc error_uri;
    mret (Redirect next_url)
  else
    let state_key := state_key self in
    st ← flask_session_getitem state_key;
    _ ← modify_session (with__state (Some st));
    _ ← flask_session_delitem state_key;
    let url := authorization_response req in
    token ← session_fetch_token (bp_token_url self) url
              (bp_client_secret self) (bp_token_url_params self);
    results ← oauth_authorized_send token;
    let results := default [] results in
    _ ← (if negb (any_veto results) then set_token token else mret tt);
    mret (Redirect next_url).

End Views.

(** ** Construction *)

(** The constructor arguments that reach the session or are kept on the
    blueprint. *)
Record InitArgs : Type := mkInit {
  init_name : string;
  init_client_id : option string;
  init_client_secret : option string;
  init_client : option WebApplicationClient;
  init_scope : option (list string);
  init_state : option string;
  init_base_url : string;
  init_authorization_url : option string;
  init_authorization_url_params : option (gmap string string);
  init_token_url : option string;
  init_token_url_params : option (gmap string string);
  init_redirect_url : option string;
  init_redirect_to : option string
}.

(** The session that [__init__] creates (lines 146 to 158): the session
    keeps [state or generate_token] as its source of states; its client
    is the [client] that was passed, or else a fresh oauthlib client for
    [client_id]; its [client_id] is the one of its client. *)
Definition init_session (a : InitArgs) : OAuth2Session :=
  let client :=
    match init_client a with
    | Some c => c
    | None => mkClient (init_client_id a) None None
    end in
  mkSession (wc_client_id client) client
            (if str_truthy (init_state a)
             then FixedState (str_or (init_state a) "") else Generator)
            (init_state a) None (init_scope a) None (init_base_url a).

(** The attributes that [__init__] stores on the blueprint (lines 160 to
    168). *)
Definition init_blueprint (a : InitArgs) : OAuth2ConsumerBlueprint :=
  mkBlueprint (init_name a) (init_client_secret a) (init_state a)
              (init_authorization_url a)
              (default ∅ (init_authorization_url_params a))
              (init_token_url a)
              (default ∅ (init_token_url_params a))
              (init_redirect_url a) (init_redirect_to a).

(** The world right after construction: nothing in the Flask session,
    no token stored, nothing observed yet. *)
Definition init_world (a : InitArgs) : world :=
  mkWorld ∅ (init_session a) None 0 [].

(** The session draws its states from the source that the blueprint's
    own [state] determines; [__init__] passes the same [state] to both. *)
Definition state_source_agrees (self : OAuth2ConsumerBlueprint) (w : world) : Prop :=
  sess_state (session w) =
    if str_truthy (bp_state self)
    then FixedState (str_or (bp_state self) "") else Generator.

(** ** Reading traces *)

(** The exchanges that were attempted, in order. *)
Definition fetch_calls (tr : list event) : list FetchTokenArgs :=
  omap (fun e => match e with FetchToken a => Some a | _ => None end) tr.

(** The payloads written to the token store, in order. *)
Definition token_sets (tr : list event) : list Token :=
  omap (fun e => match e with TokenSet t => Some t | _ => None end) tr.

(** The keys deleted from the Flask session, in order. *)
Definition session_dels (tr : list event) : list string :=
  omap (fun e => match e with SessionDel k => Some k | _ => None end) tr.

(** The error events sent, in order. *)
Definition error_events (tr : list event)
  : list (string * option string * option string) :=
  omap (fun e => match e with
                 | OAuthErrorSent er d u => Some (er, d, u)
                 | _ => None
                 end) tr.

(** The arguments with which [authorized] calls [fetch_token] once the
    stored state [st] has been moved into the session. *)
Definition fetch_args (self : OAuth2ConsumerBlueprint) (req : Request)
    (st : string) : FetchTokenArgs :=
  mkFetch (bp_token_url self) (authorization_response req)
          (bp_client_secret self) (bp_token_url_params self) (Some st).

(** What the receivers of [oauth_authorized] return for [token]. *)
Definition receiver_results (receivers : option (list (Token -> PyVal)))
    (token : Token) : list (nat * PyVal) :=
  default [] ((fun rs => imap (fun i f => (i, f token)) rs) <$> receivers).

(** The world in which the exchange is attempted: the stored state has
    moved from the Flask session into the session object. *)
Definition world_at_exchange (self : OAuth2ConsumerBlueprint) (req : Request)
    (st : string) (w : world) : world :=
  mkWorld (delete (state_key self) (flask_session w))
          (with__state (Some st) (session w))
          (token_storage w) (rng w)
          ((trace w ++ [SessionDel (state_key self)])
             ++ [FetchToken (fetch_args self req st)])%list.

(** The world that a completed exchange leaves. *)
Definition world_after_grant (receivers : option (list (Token -> PyVal)))
    (self : OAuth2ConsumerBlueprint) (req : Request)
    (st : string) (token : Token) (w : world) : world :=
  let w1 := world_at_exchange self req st w in
  let veto := any_veto (receiver_results receivers token) in
  mkWorld (flask_session w1)
          (with_token (Some token)
             (with__client (populated_client (sess__client (session w1)) token)
                (session w1)))
          (if veto then token_storage w else Some token)
          (rng w)
          (if veto
           then (trace w1 ++ [OAuthAuthorizedSent token])%list
           else ((trace w1 ++ [OAuthAuthorizedSent token])
                   ++ [TokenSet token])%list).

(** A receiver of [oauth_authorized] vetoes a token when what it returns
    compares equal to [False]. *)
Definition vetoed (receivers : option (list (Token -> PyVal))) (token : Token) : Prop :=
  exists rs f, receivers = Some rs /\ f ∈ rs /\ py_eq_False (f token) = true.

(** ** A test application

    The fixtures of the test-suite: a blueprint called [test-service], a
    provider that answers every exchange with [FAKE_OAUTH2_TOKEN]. *)

Module Demo.

Definition FAKE_OAUTH2_TOKEN : Token :=
  <["access_token" := PyStr "deadbeef"]>
    (<["scope" := PyList [PyStr "custom"]]>
       (<["token_type" := PyStr "bearer"]> ∅)).

(** The token of the spec's example. *)
Definition SPEC_TOKEN : Token :=
  <["access_token" := PyStr "deadbeef"]> (<["token_type" := PyStr "bearer"]> ∅).

Definition url_for (a : UrlForArgs) : string :=
  let path :=
    if String.eqb (uf_endpoint a) ".authorized" then "/login/test-service/authorized"
    else if String.eqb (uf_endpoint a) "index" then "/c"
    else "/" ++ uf_endpoint a in
  let path :=
    match uf_next a with
    | Some n => path ++ "?next=" ++ n
    | None => path
    end in
  if uf_external a
  then default "http" (uf_scheme a) ++ "://a.b.c" ++ path
  else path.

Definition token_response (a : FetchTokenArgs) : outcome Token :=
  Ok FAKE_OAUTH2_TOKEN.

Definition failing_token_response (a : FetchTokenArgs) : outcome Token :=
  Raise (ExchangeError "invalid_grant").

(** A generator without collisions: the [n]-th draw is [n] letters long. *)
Fixpoint generate_token (n : nat) : string :=
  match n with
  | O => "s"
  | S k => String "x" (generate_token k)
  end.

Definition prepare_request_uri (a : PrepareArgs) : string :=
  default "" (pr_url a) ++ "?response_type=code&state=" ++ pr_state a.

Definition approve (t : Token) : PyVal := PyNone.
Definition reject (t : Token) : PyVal := PyBool false.

Definition args : InitArgs :=
  mkInit "test-service" (Some "client_id") (Some "client_secret") None None None
         "https://example.com"
         (Some "https://example.com/oauth/authorize") None
         (Some "https://example.com/oauth/access_token") None
         None None.

Definition bp : OAuth2ConsumerBlueprint := init_blueprint args.

(** The same application with every post-login destination configured. *)
Definition bp_all : OAuth2ConsumerBlueprint :=
  init_blueprint
    (mkInit "test-service" (Some "client_id") (Some "client_secret") None None None
            "https://example.com"
            (Some "https://example.com/oauth/authorize") None
            (Some "https://example.com/oauth/access_token") None
            (Some "/b") (Some "index")).

Definition bp_endpoint : OAuth2ConsumerBlueprint :=
  init_blueprint
    (mkInit "test-service" (Some "client_id") (Some "client_secret") None None None
            "https://example.com"
            (Some "https://example.com/oauth/authorize") None
            (Some "https://example.com/oauth/access_token") None
            None (Some "index")).

(** The same application built with a fixed [state]. *)
Definition args_fixed : InitArgs :=
  mkInit "test-service" (Some "client_id") (Some "client_secret") None None
         (Some "random-string")
         "https://example.com"
         (Some "https://example.com/oauth/authorize") None
         (Some "https://example.com/oauth/access_token") None
         None None.

Definition bp_fixed : OAuth2ConsumerBlueprint := init_blueprint args_fixed.

Definition w0 : world := init_world args.

(** A world in which [login] has left a state behind. *)
Definition w_pending : world :=
  mkWorld {["test-service_oauth_state" := "random-string"]}
          (init_session args) None 1 [].

Definition login_request : Request :=
  mkRequest ∅ ∅ "http://a.b.c/login/test-service" false.

Definition callback_request : Request :=
  mkRequest {["code" := "secret-code"; "state" := "random-string"]} ∅
            "http://a.b.c/login/test-service/authorized?code=secret-code&state=random-string"
            false.

Definition error_request : Request :=
  mkRequest {["error" := "access_denied";
              "error_description" := "The user denied the request"]} ∅
            "http://a.b.c/login/test-service/authorized?error=access_denied"
            false.

(** A callback whose [error] parameter is there but empty. *)
Definition empty_error_request : Request :=
  mkRequest {["error" := ""; "code" := "secret-code"; "state" := "random-string"]} ∅
            "http://a.b.c/login/test-service/authorized?error=&code=secret-code&state=random-string"
            false.

Definition next_request : Request :=
  mkRequest {["next" := "/a"; "code" := "secret-code"; "state" := "random-string"]} ∅
            "http://a.b.c/login/test-service/authorized?next=/a&code=secret-code&state=random-string"
            false.

End Demo.

(** ** More readers and expected values *)

(** The tokens announced to the receivers of [oauth_authorized], in order. *)
Definition granted_events (tr : list event) : list Token :=
  omap (fun e => match e with OAuthAuthorizedSent t => Some t | _ => None end) tr.

(** The assignments made to the Flask session, in order. *)
Definition session_sets (tr : list event) : list (string * string) :=
  omap (fun e => match e with SessionSet k v => Some (k, v) | _ => None end) tr.

(** Lines 180 to 184 of [login]: the callback URL, https when the request
    is secure or a proxy in front says so. *)
Definition login_redirect_uri (url_for : UrlForArgs -> string) (req : Request)
  : string :=
  url_for (mkUrlFor ".authorized" (req_args req !! "next") true
             (Some (if req_is_secure req
                       || header_is req "X-Forwarded-Proto" "http" "https"
                    then "https" else "http"))).

(** The state that a [login] in world [w] works with: the blueprint's own
    when it has one, else the next draw of the generator. *)
Definition login_state (generate_token : nat -> string)
    (self : OAuth2ConsumerBlueprint) (w : world) : string :=
  if str_truthy (bp_state self) then str_or (bp_state self) ""
  else generate_token (rng w).

(** The authorization URL to which a [login] in world [w] redirects. *)
Definition login_location (url_for : UrlForArgs -> string)
    (generate_token : nat -> string)
    (prepare_request_uri : PrepareArgs -> string)
    (self : OAuth2ConsumerBlueprint) (req : Request) (w : world) : string :=
  prepare_request_uri
    (mkPrepare (bp_authorization_url self)
               (Some (login_redirect_uri url_for req))
               (sess_scope (session w))
               (login_state generate_token self w)
               (bp_authorization_url_params self)).

(** ** Well-formed URL components *)

(** No character of [s] satisfies [p]. *)
Definition no_char (p : ascii -> bool) (s : string) : bool :=
  URL.all_chars (fun c => negb (p c)) s.

(** A scheme as [urlsplit] returns one: a letter first, scheme
    characters only, in lower case. *)
Definition valid_scheme (s : string) : bool :=
  URL.first_is_alpha s && URL.all_chars URL.is_scheme_char s
  && String.eqb (URL.lower s) s.

(** No tab and no line end in [s]. *)
Definition safe (s : string) : bool := no_char URL.is_unsafe_byte s.

(** A character that may stand in a path segment without being taken
    for anything else: no control character, no space, no delimiter. *)
Definition is_segment_char (c : ascii) : bool :=
  negb (URL.is_c0_control_or_space c)
  && negb (URL.is_char "/" c) && negb (URL.is_char ";" c)
  && negb (URL.is_char ":" c) && negb (URL.is_char "?" c)
  && negb (URL.is_char "#" c).



(** [s] is empty or begins with a character satisfying [p]. *)
Definition empty_or_starts (p : ascii -> bool) (s : string) : bool :=
  match s with
  | EmptyString => true
  | String c _ => p c
  end.

(** The text as [urlsplit] reads it: without leading control characters
    and spaces, without tabs and line ends. *)
Definition cleaned (url : string) : string :=
  URL.remove URL.is_unsafe_byte (URL.lstrip URL.is_c0_control_or_space url).

(** What [urlsplit] makes of the text that follows the scheme. *)
Definition split_rest (sch url1 : string) : URL.SplitResult :=
  let '(nl, url2) :=
    if URL.starts_with_slashes url1
    then URL.break URL.is_netloc_end (URL.tail (URL.tail url1))
    else ("", url1) in
  let '(url3, frag) := URL.break (URL.is_char "#") url2 in
  let '(pth, qry) := URL.break (URL.is_char "?") url3 in
  URL.mkSplit sch nl pth (URL.tail qry) (URL.tail frag).

(** The pieces that [urlunsplit] glues after the network location: the
    path, made absolute when it is not, the query after its question
    mark, the fragment after its hash. *)
Definition slashed_path (p : string) : string :=
  if URL.nonempty p && negb (String.prefix "/" p) then "/" ++ p else p.

Definition query_part (q : string) : string :=
  if URL.nonempty q then "?" ++ q else "".

Definition fragment_part (f : string) : string :=
  if URL.nonempty f then "#" ++ f else "".

(** ** More of the test application *)

Module DemoMore.

(** A second blueprint, for another provider. *)
Definition bp_other : OAuth2ConsumerBlueprint :=
  init_blueprint
    (mkInit "other-service" (Some "client_id") (Some "client_secret") None None None
            "https://other.example.org"
            (Some "https://other.example.org/oauth/authorize") None
            (Some "https://other.example.org/oauth/access_token") None
            None None).

(** A world in which both flows have a state pending. *)
Definition w_both_pending : world :=
  mkWorld {["test-service_oauth_state" := "random-string";
            "other-service_oauth_state" := "other-string"]}
          (init_session Demo.args) None 2 [].


(** A session for an API under [https://api.example.com/v1/]. *)
Definition api_session : OAuth2Session :=
  mkSession (Some "client_id") (mkClient (Some "client_id") None None)
            Generator None None None None "https://api.example.com/v1/".


(** The one address that the examples write in brackets: the loopback
    address. *)
Definition is_ipv6_address (hostname : string) : bool :=
  String.eqb hostname "::1".

(** A world with a token in the store. *)
Definition w_stored : world :=
  mkWorld {["test-service_oauth_state" := "random-string"]}
          (init_session Demo.args) (Some Demo.SPEC_TOKEN) 1 [].

End DemoMore.

(** * Properties *)

(** ** Truthiness *)

Lemma str_truthy_Some (o : option string) :
  str_truthy o = true -> exists s, o = Some s /\ s <> "".
Proof.
  destruct o as [s|]; simpl; [|discriminate].
  intros H. exists s. split; [reflexivity|].
  intros ->. discriminate.
Qed.

Lemma str_or_truthy (a : option string) (b : string) :
  str_truthy a = true -> Some (str_or a b) = a.
Proof.
  destruct a as [s|]; simpl; [|discriminate].
  destruct (String.eqb s ""); [discriminate | reflexivity].
Qed.

(** ** The session *)

Lemma dict_truthy_nonempty (t : Token) : dict_truthy t = true <-> t <> ∅.
Proof.
  unfold dict_truthy. rewrite negb_true_iff, Nat.eqb_neq.
  apply map_size_non_empty_iff.
Qed.

Lemma load_token_session_token (w : world) :
  sess_token (session (load_token w).2) = token_storage w.
Proof.
  unfold load_token, blueprint_token, mbind, M_bind, get_world,
    modify_session, modify, mret, M_ret.
  simpl. destruct (token_truthy (token_storage w)); reflexivity.
Qed.

(** C9. The session's [authorized] predicate holds exactly when a
    non-empty token is loaded: after [load_token] with a stored token
    that has [access_token] and [token_type] it is [True], and with no
    token stored it is [False]. *)
Theorem session_authorized_iff_token_loaded :
  (forall self : OAuth2Session,
     OAuth2Session_authorized self = true <->
     exists t, sess_token self = Some t /\ t <> ∅) /\
  (forall (w : world) (t : Token),
     token_storage w = Some t ->
     is_Some (t !! "access_token") -> is_Some (t !! "token_type") ->
     OAuth2Session_authorized (session (load_token w).2) = true) /\
  (forall w : world,
     token_storage w = None ->
     OAuth2Session_authorized (session (load_token w).2) = false).
Proof.
  split; [|split].
  - intros self. unfold OAuth2Session_authorized, token_truthy.
    destruct (sess_token self) as [t|].
    + rewrite dict_truthy_nonempty. split.
      * intros H. exists t. split; [reflexivity | exact H].
      * intros (t' & Heq & Hne). inversion Heq. subst. exact Hne.
    + split; [discriminate|]. intros (t' & Heq & _). discriminate.
  - intros w t Hst [v Hv] _.
    unfold OAuth2Session_authorized. rewrite load_token_session_token, Hst.
    simpl. apply dict_truthy_nonempty. intros ->.
    rewrite lookup_empty in Hv. discriminate.
  - intros w Hst.
    unfold OAuth2Session_authorized. rewrite load_token_session_token, Hst.
    reflexivity.
Qed.

Lemma session_authorized_iff_token_loaded_witness :
  OAuth2Session_authorized
    (session (load_token (set_token_storage (Some Demo.SPEC_TOKEN) Demo.w0)).2)
    = true /\
  OAuth2Session_authorized (session (load_token Demo.w0).2) = false.
Proof.
  split.
  - apply (proj1 (proj2 session_authorized_iff_token_loaded)
             (set_token_storage (Some Demo.SPEC_TOKEN) Demo.w0) Demo.SPEC_TOKEN).
    + reflexivity.
    + exists (PyStr "deadbeef"). reflexivity.
    + exists (PyStr "bearer"). reflexivity.
  - apply (proj2 (proj2 session_authorized_iff_token_loaded) Demo.w0).
    reflexivity.
Defined.

(** ** The blueprint's [client_id] *)

(** C10. Assigning the blueprint's [client_id] writes the value to the
    session's [client_id] and to the [client_id] of the session's
    internal client; reading the property returns it; nothing else
    changes. *)
Theorem client_id_setter_propagates (value : option string) (w : world) :
  (set_client_id value w).1 = Ok tt /\
  sess_client_id (session (set_client_id value w).2) = value /\
  wc_client_id (sess__client (session (set_client_id value w).2)) = value /\
  client_id (set_client_id value w).2 = value /\
  (set_client_id value w).2 =
    set_session
      (with__client
         (mkClient value (wc_token (sess__client (session w)))
                   (wc_access_token (sess__client (session w))))
         (with_client_id value (session w))) w.
Proof.
  unfold set_client_id, client_id, mbind, M_bind, modify_session, modify.
  simpl. repeat split.
Qed.

(** ** The views *)

(** Unfolds one run of a view down to the state it leaves. *)
Ltac run_view :=
  unfold authorized, login, session_fetch_token, session_authorization_url,
    new_state, oauth_authorized_send, oauth_error_send, log_warning,
    set_token, flask_session_getitem, flask_session_delitem,
    flask_session_setitem, emit, modify_session, modify, get_world, raise,
    mbind, M_bind, mret, M_ret;
  cbn [fst snd flask_session session token_storage rng trace
       set_flask_session set_session set_token_storage set_rng].

Section ViewFacts.

Variable url_for : UrlForArgs -> string.
Variable token_response : FetchTokenArgs -> outcome Token.
Variable generate_token : nat -> string.
Variable prepare_request_uri : PrepareArgs -> string.
Variable oauth_authorized_receivers : option (list (Token -> PyVal)).

Local Abbreviation authorized_ :=
  (authorized url_for token_response oauth_authorized_receivers).
Local Abbreviation login_ := (login url_for generate_token prepare_request_uri).
Local Abbreviation next_url_ := (next_url url_for).

Lemma authorized_error_branch (self : OAuth2ConsumerBlueprint) (req : Request)
    (w : world) :
  str_truthy (req_args req !! "error") = true ->
  authorized_ self req w =
    (Ok (Redirect (next_url_ self req)),
     mkWorld (flask_session w) (session w) (token_storage w) (rng w)
       ((trace w
           ++ [LogWarning (str_or (req_args req !! "error") "")
                          (req_args req !! "error_description")
                          (req_args req !! "error_uri")])
          ++ [OAuthErrorSent (str_or (req_args req !! "error") "")
                             (req_args req !! "error_description")
                             (req_args req !! "error_uri")])%list).
Proof.
  intros H. run_view. rewrite H. reflexivity.
Qed.

Lemma authorized_without_state (self : OAuth2ConsumerBlueprint) (req : Request)
    (w : world) :
  str_truthy (req_args req !! "error") = false ->
  flask_session w !! state_key self = None ->
  authorized_ self req w = (Raise (KeyError (state_key self)), w).
Proof.
  intros He Hs. run_view. rewrite He, Hs. reflexivity.
Qed.

Lemma authorized_exchange_fails (self : OAuth2ConsumerBlueprint) (req : Request)
    (w : world) (st : string) (e : exn) :
  str_truthy (req_args req !! "error") = false ->
  flask_session w !! state_key self = Some st ->
  token_response (fetch_args self req st) = Raise e ->
  authorized_ self req w = (Raise e, world_at_exchange self req st w).
Proof.
  intros He Hs Hx. run_view. rewrite He, Hs.
  cbn [fst snd flask_session session token_storage rng trace
       set_flask_session set_session with__state sess__state].
  rewrite Hs.
  cbn [fst snd flask_session session token_storage rng trace
       set_flask_session set_session with__state sess__state].
  fold (fetch_args self req st). rewrite Hx. reflexivity.
Qed.

Lemma authorized_exchange_succeeds (self : OAuth2ConsumerBlueprint)
    (req : Request) (w : world) (st : string) (token : Token) :
  str_truthy (req_args req !! "error") = false ->
  flask_session w !! state_key self = Some st ->
  token_response (fetch_args self req st) = Ok token ->
  authorized_ self req w =
    (Ok (Redirect (next_url_ self req)),
     world_after_grant oauth_authorized_receivers self req st token w).
Proof.
  intros He Hs Hx. run_view. rewrite He, Hs.
  cbn [fst snd flask_session session token_storage rng trace
       set_flask_session set_session with__state sess__state].
  rewrite Hs.
  cbn [fst snd flask_session session token_storage rng trace
       set_flask_session set_session with__state sess__state].
  fold (fetch_args self req st). rewrite Hx.
  unfold world_after_grant, receiver_results.
  cbn [fst snd flask_session session token_storage rng trace
       set_flask_session set_session with__state sess__state].
  destruct (any_veto _); reflexivity.
Qed.

(** Reading a trace that grew by one event. *)

Lemma fetch_calls_snoc (tr : list event) (e : event) :
  fetch_calls (tr ++ [e]) =
    (fetch_calls tr ++
       match e with FetchToken a => [a] | _ => [] end)%list.
Proof.
  unfold fetch_calls. rewrite omap_app. destruct e; reflexivity.
Qed.

Lemma token_sets_snoc (tr : list event) (e : event) :
  token_sets (tr ++ [e]) =
    (token_sets tr ++ match e with TokenSet t => [t] | _ => [] end)%list.
Proof.
  unfold token_sets. rewrite omap_app. destruct e; reflexivity.
Qed.

Lemma session_dels_snoc (tr : list event) (e : event) :
  session_dels (tr ++ [e]) =
    (session_dels tr ++ match e with SessionDel k => [k] | _ => [] end)%list.
Proof.
  unfold session_dels. rewrite omap_app. destruct e; reflexivity.
Qed.

Lemma error_events_snoc (tr : list event) (e : event) :
  error_events (tr ++ [e]) =
    (error_events tr ++
       match e with OAuthErrorSent er d u => [(er, d, u)] | _ => [] end)%list.
Proof.
  unfold error_events. rewrite omap_app. destruct e; reflexivity.
Qed.

(** [any(ret == False ...)] over the results says that some receiver
    vetoed. *)
Lemma any_veto_vetoed (token : Token) :
  any_veto (receiver_results oauth_authorized_receivers token) = true <->
  vetoed oauth_authorized_receivers token.
Proof.
  unfold any_veto, receiver_results, vetoed.
  rewrite existsb_exists. split.
  - intros ([i ret] & Hin & Hret).
    destruct oauth_authorized_receivers as [rs|]; simpl in Hin; [|contradiction].
    apply list_elem_of_In, elem_of_lookup_imap in Hin.
    destruct Hin as (j & f & Heq & Hf). inversion Heq; subst.
    exists rs, f. split; [reflexivity|]. split; [|exact Hret].
    apply list_elem_of_lookup. exists j. exact Hf.
  - intros (rs & f & -> & Hf & Hret).
    apply list_elem_of_lookup in Hf. destruct Hf as [j Hj].
    exists (j, f token). split; [|exact Hret].
    simpl. apply list_elem_of_In, elem_of_lookup_imap.
    exists j, f. split; [reflexivity | exact Hj].
Qed.

(** C1. When the callback carries no error, a state is stored and the
    exchange returns [token], [authorized] redirects to [next_url]; if a
    receiver of the granted event returns something equal to [False] the
    token store is left alone, and if none does the token store is
    written exactly once, with [token]. *)
Theorem authorized_persists_unless_vetoed
    (self : OAuth2ConsumerBlueprint) (req : Request) (w : world)
    (st : string) (token : Token)
    (Herr : str_truthy (req_args req !! "error") = false)
    (Hst : flask_session w !! state_key self = Some st)
    (Hex : token_response (fetch_args self req st) = Ok token) :
  (authorized_ self req w).1 = Ok (Redirect (next_url_ self req)) /\
  (vetoed oauth_authorized_receivers token ->
     token_sets (trace (authorized_ self req w).2) = token_sets (trace w) /\
     token_storage (authorized_ self req w).2 = token_storage w) /\
  (~ vetoed oauth_authorized_receivers token ->
     token_sets (trace (authorized_ self req w).2)
       = (token_sets (trace w) ++ [token])%list /\
     token_storage (authorized_ self req w).2 = Some token).
Proof.
  rewrite (authorized_exchange_succeeds self req w st token Herr Hst Hex).
  cbn [fst snd]. split; [reflexivity|].
  unfold world_after_grant, world_at_exchange.
  cbn [trace token_storage].
  split; intros Hv.
  - apply any_veto_vetoed in Hv. rewrite Hv.
    rewrite !token_sets_snoc, !app_nil_r. split; reflexivity.
  - destruct (any_veto _) eqn:Hany.
    + exfalso. apply Hv, any_veto_vetoed, Hany.
    + rewrite !token_sets_snoc, !app_nil_r. split; reflexivity.
Qed.

(** C2. Without an [error] parameter and without a stored state under
    the blueprint's key, [authorized] raises [KeyError] for that key, no
    exchange is attempted and nothing changes. *)
Theorem authorized_fails_closed_without_state
    (self : OAuth2ConsumerBlueprint) (req : Request) (w : world)
    (Herr : req_args req !! "error" = None)
    (Hst : flask_session w !! state_key self = None) :
  (authorized_ self req w).1 = Raise (KeyError (state_key self)) /\
  fetch_calls (trace (authorized_ self req w).2) = fetch_calls (trace w) /\
  (authorized_ self req w).2 = w.
Proof.
  rewrite authorized_without_state; [|rewrite Herr; reflexivity | exact Hst].
  repeat split.
Qed.



(** C4, as amended. When the callback carries a non-empty [error]
    parameter, [authorized] attempts no exchange, sends one error event
    with the [error], [error_description] and [error_uri] of the request,
    and redirects to [next_url]. *)
Theorem authorized_error_skips_exchange
    (self : OAuth2ConsumerBlueprint) (req : Request) (w : world)
    (Herr : str_truthy (req_args req !! "error") = true) :
  (authorized_ self req w).1 = Ok (Redirect (next_url_ self req)) /\
  fetch_calls (trace (authorized_ self req w).2) = fetch_calls (trace w) /\
  exists er,
    req_args req !! "error" = Some er /\
    error_events (trace (authorized_ self req w).2) =
      (error_events (trace w) ++
         [(er, req_args req !! "error_description",
           req_args req !! "error_uri")])%list.
Proof.
  rewrite (authorized_error_branch self req w Herr). cbn [fst snd trace].
  split; [reflexivity|]. split.
  - rewrite !fetch_calls_snoc, !app_nil_r. reflexivity.
  - destruct (str_truthy_Some _ Herr) as (er & Her & Hne).
    exists er. split; [exact Her|].
    rewrite !error_events_snoc, app_nil_r, Her. simpl.
    destruct (String.eqb_spec er ""); [contradiction | reflexivity].
Qed.

(** C5. [next_url] is the [next] parameter when the request has one,
    else the blueprint's [redirect_url] when it is set, else the URL of
    the endpoint [redirect_to] when that is set, else ["/"]; every
    redirect that [authorized] returns goes there, the one of the error
    branch included. *)
Theorem next_url_precedence
    (self : OAuth2ConsumerBlueprint) (req : Request) (w : world) :
  (forall n, req_args req !! "next" = Some n -> next_url_ self req = n) /\
  (req_args req !! "next" = None ->
   forall u, bp_redirect_url self = Some u -> u <> "" ->
   next_url_ self req = u) /\
  (req_args req !! "next" = None ->
   str_truthy (bp_redirect_url self) = false ->
   forall e, bp_redirect_to self = Some e -> e <> "" ->
   next_url_ self req = url_for (mkUrlFor e None false None)) /\
  (req_args req !! "next" = None ->
   str_truthy (bp_redirect_url self) = false ->
   str_truthy (bp_redirect_to self) = false ->
   next_url_ self req = "/") /\
  (forall r w', authorized_ self req w = (Ok r, w') ->
   r = Redirect (next_url_ self req)) /\
  (str_truthy (req_args req !! "error") = true ->
   (authorized_ self req w).1 = Ok (Redirect (next_url_ self req))).
Proof.
  unfold next_url. repeat split.
  - intros n ->. reflexivity.
  - intros -> u -> Hu. simpl.
    destruct (String.eqb_spec u ""); [contradiction | reflexivity].
  - intros -> -> e -> He. simpl.
    destruct (String.eqb_spec e ""); [contradiction | reflexivity].
  - intros -> -> ->. reflexivity.
  - intros r w' Hrun.
    destruct (str_truthy (req_args req !! "error")) eqn:He.
    + rewrite (authorized_error_branch self req w He) in Hrun.
      inversion Hrun. reflexivity.
    + destruct (flask_session w !! state_key self) as [st|] eqn:Hs.
      * destruct (token_response (fetch_args self req st)) as [token|e] eqn:Hx.
        -- rewrite (authorized_exchange_succeeds self req w st token He Hs Hx)
             in Hrun.
           inversion Hrun. reflexivity.
        -- rewrite (authorized_exchange_fails self req w st e He Hs Hx) in Hrun.
           discriminate.
      * rewrite (authorized_without_state self req w He Hs) in Hrun.
        discriminate.
  - intros He. rewrite (authorized_error_branch self req w He). reflexivity.
Qed.

(** C6, as amended. The error branch of [authorized] neither stores nor
    removes anything: the Flask session, the session object and the
    token store are as they were, so a state stored under the
    blueprint's key is still there afterwards. *)
Theorem authorized_error_keeps_state
    (self : OAuth2ConsumerBlueprint) (req : Request) (w : world)
    (Herr : str_truthy (req_args req !! "error") = true) :
  flask_session (authorized_ self req w).2 = flask_session w /\
  session (authorized_ self req w).2 = session w /\
  token_storage (authorized_ self req w).2 = token_storage w /\
  session_dels (trace (authorized_ self req w).2) = session_dels (trace w) /\
  flask_session (authorized_ self req w).2 !! state_key self
    = flask_session w !! state_key self.
Proof.
  rewrite (authorized_error_branch self req w Herr).
  cbn [snd flask_session session token_storage trace].
  rewrite !session_dels_snoc, !app_nil_r. repeat split.
Qed.

End ViewFacts.

Section LoginFacts.

Variable url_for : UrlForArgs -> string.
Variable generate_token : nat -> string.
Variable prepare_request_uri : PrepareArgs -> string.

Local Abbreviation login_ := (login url_for generate_token prepare_request_uri).

Lemma login_with_generator (self : OAuth2ConsumerBlueprint) (req : Request)
    (w : world) :
  str_truthy (bp_state self) = false ->
  sess_state (session w) = Generator ->
  flask_session (login_ self req w).2
    = <[state_key self := generate_token (rng w)]> (flask_session w) /\
  rng (login_ self req w).2 = S (rng w) /\
  sess_state (session (login_ self req w).2) = Generator.
Proof.
  intros Hc Hg. run_view. rewrite Hc.
  cbn [session set_session with_redirect_uri sess_state]. rewrite Hg.
  simpl. repeat split. exact Hg.
Qed.

Lemma login_with_fixed_state (self : OAuth2ConsumerBlueprint) (req : Request)
    (w : world) :
  str_truthy (bp_state self) = true ->
  flask_session (login_ self req w).2
    = <[state_key self := str_or (bp_state self) ""]> (flask_session w) /\
  rng (login_ self req w).2 = rng w /\
  sess_state (session (login_ self req w).2) = sess_state (session w).
Proof.
  intros Hc. run_view. rewrite Hc. simpl. repeat split.
Qed.

(** C7, as amended. A blueprint built without a [state] (none, or an
    empty one) stores at each [login] the next draw of the session's
    generator, so two [login]s in a row store different states as long
    as the generator does not repeat itself; a blueprint built with a
    non-empty [state] stores that very text at every [login]. *)
Theorem login_state_fresh_from_generator
    (Hinj : forall m n, generate_token m = generate_token n -> m = n)
    (self : OAuth2ConsumerBlueprint) (req1 req2 : Request) (w : world)
    (Hsrc : state_source_agrees self w) :
  (str_truthy (bp_state self) = false ->
   flask_session (login_ self req1 w).2 !! state_key self
     = Some (generate_token (rng w)) /\
   flask_session (login_ self req2 (login_ self req1 w).2).2 !! state_key self
     = Some (generate_token (S (rng w))) /\
   flask_session (login_ self req1 w).2 !! state_key self
     <> flask_session (login_ self req2 (login_ self req1 w).2).2
          !! state_key self) /\
  (str_truthy (bp_state self) = true ->
   flask_session (login_ self req1 w).2 !! state_key self = bp_state self /\
   flask_session (login_ self req2 (login_ self req1 w).2).2 !! state_key self
     = bp_state self).
Proof.
  unfold state_source_agrees in Hsrc. split; intros Hc; rewrite Hc in Hsrc.
  - destruct (login_with_generator self req1 w Hc Hsrc) as (Hf1 & Hr1 & Hg1).
    destruct (login_with_generator self req2 _ Hc Hg1) as (Hf2 & _ & _).
    rewrite Hf1, Hf2, Hr1, !lookup_insert_eq.
    split; [reflexivity|]. split; [reflexivity|].
    intros Heq. inversion Heq as [Hgen]. apply Hinj in Hgen. lia.
  - destruct (login_with_fixed_state self req1 w Hc) as (Hf1 & _ & _).
    destruct (login_with_fixed_state self req2 (login_ self req1 w).2 Hc)
      as (Hf2 & _ & _).
    rewrite Hf1, Hf2, !lookup_insert_eq, str_or_truthy by exact Hc.
    split; reflexivity.
Qed.

End LoginFacts.

(** ** The test application *)

Lemma demo_generate_token_inj (m n : nat) :
  Demo.generate_token m = Demo.generate_token n -> m = n.
Proof.
  revert n. induction m as [|m IH]; intros [|n]; simpl; intros H.
  - reflexivity.
  - discriminate.
  - discriminate.
  - f_equal. apply IH. inversion H. reflexivity.
Qed.

Lemma approve_never_vetoes (token : Token) :
  ~ vetoed (Some [Demo.approve]) token.
Proof.
  intros (rs & f & Heq & Hin & Hret). inversion Heq; subst.
  apply list_elem_of_singleton in Hin. subst. discriminate.
Qed.

Lemma reject_vetoes (token : Token) :
  vetoed (Some [Demo.approve; Demo.reject]) token.
Proof.
  exists [Demo.approve; Demo.reject], Demo.reject.
  split; [reflexivity|]. split; [|reflexivity].
  apply list_elem_of_further, list_elem_of_here.
Qed.

Lemma authorized_persists_unless_vetoed_witness :
  ((authorized Demo.url_for Demo.token_response (Some [Demo.approve])
      Demo.bp Demo.callback_request Demo.w_pending).1
     = Ok (Redirect "/") /\
   token_sets (trace (authorized Demo.url_for Demo.token_response
                        (Some [Demo.approve])
                        Demo.bp Demo.callback_request Demo.w_pending).2)
     = [Demo.FAKE_OAUTH2_TOKEN]) /\
  ((authorized Demo.url_for Demo.token_response
      (Some [Demo.approve; Demo.reject])
      Demo.bp Demo.callback_request Demo.w_pending).1
     = Ok (Redirect "/") /\
   token_sets (trace (authorized Demo.url_for Demo.token_response
                        (Some [Demo.approve; Demo.reject])
                        Demo.bp Demo.callback_request Demo.w_pending).2)
     = []).
Proof.
  split.
  - destruct (authorized_persists_unless_vetoed
                Demo.url_for Demo.token_response (Some [Demo.approve])
                Demo.bp Demo.callback_request Demo.w_pending
                "random-string" Demo.FAKE_OAUTH2_TOKEN
                eq_refl eq_refl eq_refl) as (Hr & _ & Hok).
    split; [exact Hr|].
    exact (proj1 (Hok (approve_never_vetoes Demo.FAKE_OAUTH2_TOKEN))).
  - destruct (authorized_persists_unless_vetoed
                Demo.url_for Demo.token_response
                (Some [Demo.approve; Demo.reject])
                Demo.bp Demo.callback_request Demo.w_pending
                "random-string" Demo.FAKE_OAUTH2_TOKEN
                eq_refl eq_refl eq_refl) as (Hr & Hveto & _).
    split; [exact Hr|].
    exact (proj1 (Hveto (reject_vetoes Demo.FAKE_OAUTH2_TOKEN))).
Defined.

Lemma authorized_fails_closed_without_state_witness :
  (authorized Demo.url_for Demo.token_response (Some [Demo.approve])
     Demo.bp Demo.callback_request Demo.w0).1
    = Raise (KeyError "test-service_oauth_state") /\
  fetch_calls (trace (authorized Demo.url_for Demo.token_response
                        (Some [Demo.approve])
                        Demo.bp Demo.callback_request Demo.w0).2)
    = [] /\
  (authorized Demo.url_for Demo.token_response (Some [Demo.approve])
     Demo.bp Demo.callback_request Demo.w0).2 = Demo.w0.
Proof.
  apply (authorized_fails_closed_without_state
           Demo.url_for Demo.token_response (Some [Demo.approve])
           Demo.bp Demo.callback_request Demo.w0); reflexivity.
Defined.


(** C4, as stated, fails: a callback whose [error] parameter is empty
    carries the parameter, and yet the exchange is attempted. *)
Lemma authorized_empty_error_reaches_exchange :
  ~ (forall (url_for : UrlForArgs -> string)
            (token_response : FetchTokenArgs -> outcome Token)
            (receivers : option (list (Token -> PyVal)))
            (self : OAuth2ConsumerBlueprint) (req : Request) (w : world),
       is_Some (req_args req !! "error") ->
       fetch_calls
         (trace (authorized url_for token_response receivers self req w).2)
         = fetch_calls (trace w)).
Proof.
  intros H.
  specialize (H Demo.url_for Demo.token_response (Some [Demo.approve])
                Demo.bp Demo.empty_error_request Demo.w_pending).
  assert (Hs : is_Some (req_args Demo.empty_error_request !! "error"))
    by (exists ""; reflexivity).
  specialize (H Hs). vm_compute in H. discriminate H.
Qed.

Lemma authorized_error_skips_exchange_witness :
  (authorized Demo.url_for Demo.token_response (Some [Demo.approve])
     Demo.bp Demo.error_request Demo.w_pending).1 = Ok (Redirect "/") /\
  fetch_calls (trace (authorized Demo.url_for Demo.token_response
                        (Some [Demo.approve])
                        Demo.bp Demo.error_request Demo.w_pending).2) = [] /\
  exists er,
    req_args Demo.error_request !! "error" = Some er /\
    error_events (trace (authorized Demo.url_for Demo.token_response
                           (Some [Demo.approve])
                           Demo.bp Demo.error_request Demo.w_pending).2)
      = [(er, Some "The user denied the request", None)].
Proof.
  apply (authorized_error_skips_exchange
           Demo.url_for Demo.token_response (Some [Demo.approve])
           Demo.bp Demo.error_request Demo.w_pending).
  reflexivity.
Defined.

Lemma next_url_precedence_witness :
  next_url Demo.url_for Demo.bp_all Demo.next_request = "/a" /\
  next_url Demo.url_for Demo.bp_all Demo.callback_request = "/b" /\
  next_url Demo.url_for Demo.bp_endpoint Demo.callback_request = "/c" /\
  next_url Demo.url_for Demo.bp Demo.callback_request = "/" /\
  (authorized Demo.url_for Demo.token_response (Some [Demo.approve])
     Demo.bp_all Demo.error_request Demo.w_pending).1 = Ok (Redirect "/b").
Proof.
  split; [|split; [|split; [|split]]].
  - exact (proj1 (next_url_precedence
                    Demo.url_for Demo.token_response (Some [Demo.approve])
                    Demo.bp_all Demo.next_request Demo.w_pending)
             "/a" eq_refl).
  - refine (proj1 (proj2 (next_url_precedence
                    Demo.url_for Demo.token_response (Some [Demo.approve])
                    Demo.bp_all Demo.callback_request Demo.w_pending))
             eq_refl "/b" eq_refl _).
    discriminate.
  - refine (proj1 (proj2 (proj2 (next_url_precedence
                    Demo.url_for Demo.token_response (Some [Demo.approve])
                    Demo.bp_endpoint Demo.callback_request Demo.w_pending)))
             eq_refl eq_refl "index" eq_refl _).
    discriminate.
  - exact (proj1 (proj2 (proj2 (proj2 (next_url_precedence
                    Demo.url_for Demo.token_response (Some [Demo.approve])
                    Demo.bp Demo.callback_request Demo.w_pending))))
             eq_refl eq_refl eq_refl).
  - exact (proj2 (proj2 (proj2 (proj2 (proj2 (next_url_precedence
                    Demo.url_for Demo.token_response (Some [Demo.approve])
                    Demo.bp_all Demo.error_request Demo.w_pending)))))
             eq_refl).
Defined.

(** C6, as stated, fails: the state that [login] stored is still in the
    Flask session after the error branch. *)
Lemma authorized_error_leaves_state_stored :
  ~ (forall (url_for : UrlForArgs -> string)
            (token_response : FetchTokenArgs -> outcome Token)
            (receivers : option (list (Token -> PyVal)))
            (self : OAuth2ConsumerBlueprint) (req : Request) (w : world),
       str_truthy (req_args req !! "error") = true ->
       flask_session (authorized url_for token_response receivers self req w).2
         !! state_key self = None).
Proof.
  intros H.
  specialize (H Demo.url_for Demo.token_response (Some [Demo.approve])
                Demo.bp Demo.error_request Demo.w_pending eq_refl).
  vm_compute in H. discriminate H.
Qed.

Lemma authorized_error_keeps_state_witness :
  flask_session (authorized Demo.url_for Demo.token_response
                   (Some [Demo.approve])
                   Demo.bp Demo.error_request Demo.w_pending).2
    !! "test-service_oauth_state" = Some "random-string".
Proof.
  destruct (authorized_error_keeps_state
              Demo.url_for Demo.token_response (Some [Demo.approve])
              Demo.bp Demo.error_request Demo.w_pending eq_refl)
    as (_ & _ & _ & _ & Hkept).
  exact (eq_trans Hkept eq_refl).
Defined.

(** C7, as stated, fails: a blueprint built with a fixed [state] stores
    the same state at every [login], whatever the generator. *)
Lemma login_fixed_state_repeats :
  ~ (forall (url_for : UrlForArgs -> string)
            (generate_token : nat -> string)
            (prepare_request_uri : PrepareArgs -> string),
       (forall m n, generate_token m = generate_token n -> m = n) ->
       forall (self : OAuth2ConsumerBlueprint) (req1 req2 : Request) (w : world),
       state_source_agrees self w ->
       flask_session
         (login url_for generate_token prepare_request_uri self req1 w).2
         !! state_key self
       <> flask_session
            (login url_for generate_token prepare_request_uri self req2
               (login url_for generate_token prepare_request_uri self req1 w).2).2
            !! state_key self).
Proof.
  intros H.
  apply (H Demo.url_for Demo.generate_token Demo.prepare_request_uri
           demo_generate_token_inj
           Demo.bp_fixed Demo.login_request Demo.login_request
           (init_world Demo.args_fixed)).
  - reflexivity.
  - vm_compute. reflexivity.
Qed.

Lemma login_state_fresh_from_generator_witness :
  flask_session
    (login Demo.url_for Demo.generate_token Demo.prepare_request_uri
       Demo.bp Demo.login_request Demo.w0).2
    !! "test-service_oauth_state" = Some "s" /\
  flask_session
    (login Demo.url_for Demo.generate_token Demo.prepare_request_uri
       Demo.bp Demo.login_request
       (login Demo.url_for Demo.generate_token Demo.prepare_request_uri
          Demo.bp Demo.login_request Demo.w0).2).2
    !! "test-service_oauth_state" = Some "xs".
Proof.
  destruct (proj1 (login_state_fresh_from_generator
                     Demo.url_for Demo.generate_token Demo.prepare_request_uri
                     demo_generate_token_inj
                     Demo.bp Demo.login_request Demo.login_request Demo.w0
                     eq_refl) eq_refl) as (H1 & H2 & _).
  split; [exact H1 | exact H2].
Defined.

(** * Further properties of the views *)

(** Reading a trace that grew by one event, continued. *)

Lemma granted_events_snoc (tr : list event) (e : event) :
  granted_events (tr ++ [e]) =
    (granted_events tr ++
       match e with OAuthAuthorizedSent t => [t] | _ => [] end)%list.
Proof.
  unfold granted_events. rewrite omap_app. destruct e; reflexivity.
Qed.

Lemma session_sets_snoc (tr : list event) (e : event) :
  session_sets (tr ++ [e]) =
    (session_sets tr ++
       match e with SessionSet k v => [(k, v)] | _ => [] end)%list.
Proof.
  unfold session_sets. rewrite omap_app. destruct e; reflexivity.
Qed.

(** ** State keys *)

Lemma string_length_append (a b : string) :
  String.length (a ++ b) = String.length a + String.length b.
Proof.
  induction a as [|c a IH]; simpl; [reflexivity | rewrite IH; reflexivity].
Qed.

Lemma string_append_cancel_r (a b s : string) : a ++ s = b ++ s -> a = b.
Proof.
  revert b. induction a as [|c a IH]; intros [|d b] H.
  - reflexivity.
  - exfalso. apply (f_equal String.length) in H.
    rewrite !string_length_append in H. simpl in H. lia.
  - exfalso. apply (f_equal String.length) in H.
    rewrite !string_length_append in H. simpl in H. lia.
  - simpl in H. inversion H as [[Hc Hs]]. f_equal. apply IH. exact Hs.
Qed.

Lemma state_key_inj (a b : OAuth2ConsumerBlueprint) :
  state_key a = state_key b -> bp_name a = bp_name b.
Proof.
  unfold state_key. apply string_append_cancel_r.
Qed.

Section FlowFacts.

Variable url_for : UrlForArgs -> string.
Variable token_response : FetchTokenArgs -> outcome Token.
Variable generate_token : nat -> string.
Variable prepare_request_uri : PrepareArgs -> string.
Variable oauth_authorized_receivers : option (list (Token -> PyVal)).

Local Abbreviation authorized_ :=
  (authorized url_for token_response oauth_authorized_receivers).
Local Abbreviation login_ := (login url_for generate_token prepare_request_uri).

(** Everything that one [login] does, for a session whose source of
    states is the one the constructor gave it. *)
Lemma login_effects (self : OAuth2ConsumerBlueprint) (req : Request) (w : world) :
  state_source_agrees self w ->
  (login_ self req w).1
    = Ok (Redirect (login_location url_for generate_token prepare_request_uri
                      self req w)) /\
  flask_session (login_ self req w).2
    = <[state_key self := login_state generate_token self w]> (flask_session w) /\
  trace (login_ self req w).2
    = (trace w ++ [SessionSet (state_key self)
                     (login_state generate_token self w)])%list /\
  token_storage (login_ self req w).2 = token_storage w /\
  sess_redirect_uri (session (login_ self req w).2)
    = Some (login_redirect_uri url_for req) /\
  sess_client_id (session (login_ self req w).2) = sess_client_id (session w) /\
  sess__client (session (login_ self req w).2) = sess__client (session w) /\
  sess_state (session (login_ self req w).2) = sess_state (session w) /\
  sess_token (session (login_ self req w).2) = sess_token (session w).
Proof.
  unfold state_source_agrees, login_location, login_state, login_redirect_uri.
  intros Hsrc. run_view.
  destruct (str_truthy (bp_state self)) eqn:Hc.
  - simpl. repeat split.
  - cbn [session set_session with_redirect_uri sess_state]. rewrite Hsrc.
    simpl. repeat split. exact Hsrc.
Qed.

(** What [login] does to the Flask session under any key but its own,
    whatever the session's source of states. *)
Lemma login_other_keys (self : OAuth2ConsumerBlueprint) (req : Request)
    (w : world) (k : string) :
  k <> state_key self ->
  flask_session (login_ self req w).2 !! k = flask_session w !! k.
Proof.
  intros Hk. run_view.
  destruct (str_truthy (bp_state self)).
  - simpl. apply lookup_insert_ne. congruence.
  - cbn [session set_session with_redirect_uri sess_state].
    destruct (sess_state (session w)); simpl;
      apply lookup_insert_ne; congruence.
Qed.

(** What [authorized] does to the Flask session under any key but its
    own, however it ends. *)
Lemma authorized_other_keys (self : OAuth2ConsumerBlueprint) (req : Request)
    (w : world) (k : string) :
  k <> state_key self ->
  flask_session (authorized_ self req w).2 !! k = flask_session w !! k.
Proof.
  intros Hk.
  destruct (str_truthy (req_args req !! "error")) eqn:He.
  - rewrite (authorized_error_branch
             url_for token_response oauth_authorized_receivers self req w He). reflexivity.
  - destruct (flask_session w !! state_key self) as [st|] eqn:Hs.
    + destruct (token_response (fetch_args self req st)) as [token|e] eqn:Hx.
      * rewrite (authorized_exchange_succeeds
             url_for token_response oauth_authorized_receivers self req w st token He Hs Hx).
        cbn [snd]. unfold world_after_grant, world_at_exchange.
        cbn [flask_session]. apply lookup_delete_ne. congruence.
      * rewrite (authorized_exchange_fails
             url_for token_response oauth_authorized_receivers self req w st e He Hs Hx).
        cbn [snd]. unfold world_at_exchange.
        cbn [flask_session]. apply lookup_delete_ne. congruence.
    + rewrite (authorized_without_state
             url_for token_response oauth_authorized_receivers self req w He Hs). reflexivity.
Qed.


(** X2. [login] stores nothing but the state: the token store, the
    session's token and both client ids are as before, no exchange is
    attempted and no token is announced or written; the only event is
    the assignment of the state. *)
Theorem login_touches_no_token
    (self : OAuth2ConsumerBlueprint) (req : Request) (w : world)
    (Hsrc : state_source_agrees self w) :
  token_storage (login_ self req w).2 = token_storage w /\
  sess_token (session (login_ self req w).2) = sess_token (session w) /\
  client_id (login_ self req w).2 = client_id w /\
  sess__client (session (login_ self req w).2) = sess__client (session w) /\
  fetch_calls (trace (login_ self req w).2) = fetch_calls (trace w) /\
  granted_events (trace (login_ self req w).2) = granted_events (trace w) /\
  token_sets (trace (login_ self req w).2) = token_sets (trace w) /\
  session_sets (trace (login_ self req w).2)
    = (session_sets (trace w)
         ++ [(state_key self, login_state generate_token self w)])%list.
Proof.
  destruct (login_effects self req w Hsrc)
    as (_ & _ & Htr & Hts & _ & Hci & Hcl & _ & Htk).
  unfold client_id. rewrite Htr, Hts, Hci, Hcl, Htk.
  rewrite fetch_calls_snoc, granted_events_snoc, token_sets_snoc,
    session_sets_snoc, !app_nil_r.
  repeat split.
Qed.

(** X3. Two blueprints with different names never share a state key, so
    neither the [login] nor the [authorized] of one changes what the
    other has stored: a state pending for the other flow stays pending. *)
Theorem flows_do_not_collide
    (self other : OAuth2ConsumerBlueprint) (req : Request) (w : world)
    (Hname : bp_name self <> bp_name other) :
  state_key self <> state_key other /\
  flask_session (login_ self req w).2 !! state_key other
    = flask_session w !! state_key other /\
  flask_session (authorized_ self req w).2 !! state_key other
    = flask_session w !! state_key other.
Proof.
  assert (Hk : state_key other <> state_key self).
  { intros Heq. apply Hname. symmetry. apply state_key_inj. exact Heq. }
  split; [congruence|]. split.
  - apply login_other_keys. exact Hk.
  - apply authorized_other_keys. exact Hk.
Qed.

(** X4. When the exchange fails, [authorized] raises the failure instead
    of redirecting; the token is neither announced to the receivers nor
    written to the store; and the stored state has been used up all the
    same, so that the callback cannot be tried again. *)
Theorem authorized_exchange_failure_propagates
    (self : OAuth2ConsumerBlueprint) (req : Request) (w : world)
    (st : string) (e : exn)
    (Herr : str_truthy (req_args req !! "error") = false)
    (Hst : flask_session w !! state_key self = Some st)
    (Hex : token_response (fetch_args self req st) = Raise e) :
  (authorized_ self req w).1 = Raise e /\
  granted_events (trace (authorized_ self req w).2) = granted_events (trace w) /\
  token_sets (trace (authorized_ self req w).2) = token_sets (trace w) /\
  token_storage (authorized_ self req w).2 = token_storage w /\
  sess_token (session (authorized_ self req w).2) = sess_token (session w) /\
  flask_session (authorized_ self req w).2 !! state_key self = None /\
  (authorized_ self req (authorized_ self req w).2).1
    = Raise (KeyError (state_key self)).
Proof.
  rewrite (authorized_exchange_fails
             url_for token_response oauth_authorized_receivers self req w st e Herr Hst Hex).
  cbn [fst snd]. unfold world_at_exchange at 1 2 3 4 5.
  cbn [trace token_storage session flask_session with__state sess_token].
  rewrite !granted_events_snoc, !token_sets_snoc, !app_nil_r.
  assert (Hgone : flask_session (world_at_exchange self req st w)
                    !! state_key self = None)
    by (unfold world_at_exchange; cbn [flask_session]; apply lookup_delete_eq).
  repeat split; try exact Hgone.
  rewrite (authorized_without_state
             url_for token_response oauth_authorized_receivers self req _ Herr Hgone). reflexivity.
Qed.


(** X6. Without signals ([send] returns [None]) and without receivers
    ([send] returns an empty list) nobody can veto: a successful exchange
    always writes its token to the store, once. *)
Theorem authorized_without_receivers_persists
    (self : OAuth2ConsumerBlueprint) (req : Request) (w : world)
    (st : string) (token : Token)
    (Hrecv : oauth_authorized_receivers = None \/
             oauth_authorized_receivers = Some [])
    (Herr : str_truthy (req_args req !! "error") = false)
    (Hst : flask_session w !! state_key self = Some st)
    (Hex : token_response (fetch_args self req st) = Ok token) :
  token_storage (authorized_ self req w).2 = Some token /\
  token_sets (trace (authorized_ self req w).2)
    = (token_sets (trace w) ++ [token])%list /\
  granted_events (trace (authorized_ self req w).2)
    = (granted_events (trace w) ++ [token])%list.
Proof.
  rewrite (authorized_exchange_succeeds
             url_for token_response oauth_authorized_receivers self req w st token Herr Hst Hex).
  cbn [snd]. unfold world_after_grant, world_at_exchange.
  assert (Hno : any_veto (receiver_results oauth_authorized_receivers token)
                = false)
    by (destruct Hrecv as [-> | ->]; reflexivity).
  rewrite Hno. cbn [trace token_storage].
  rewrite !token_sets_snoc, !granted_events_snoc, !app_nil_r.
  repeat split.
Qed.

(** The fields of the session object that [authorized] never assigns,
    however it ends. *)
Lemma authorized_session_frame (self : OAuth2ConsumerBlueprint) (req : Request)
    (w : world) :
  sess_client_id (session (authorized_ self req w).2)
    = sess_client_id (session w) /\
  wc_client_id (sess__client (session (authorized_ self req w).2))
    = wc_client_id (sess__client (session w)) /\
  sess_state (session (authorized_ self req w).2) = sess_state (session w) /\
  sess_redirect_uri (session (authorized_ self req w).2)
    = sess_redirect_uri (session w) /\
  sess_base_url (session (authorized_ self req w).2)
    = sess_base_url (session w) /\
  rng (authorized_ self req w).2 = rng w.
Proof.
  destruct (str_truthy (req_args req !! "error")) eqn:He.
  - rewrite (authorized_error_branch
               url_for token_response oauth_authorized_receivers self req w He).
    repeat split.
  - destruct (flask_session w !! state_key self) as [st|] eqn:Hs.
    + destruct (token_response (fetch_args self req st)) as [token|e] eqn:Hx.
      * rewrite (authorized_exchange_succeeds
                   url_for token_response oauth_authorized_receivers
                   self req w st token He Hs Hx).
        repeat split.
      * rewrite (authorized_exchange_fails
                   url_for token_response oauth_authorized_receivers
                   self req w st e He Hs Hx).
        repeat split.
    + rewrite (authorized_without_state
                 url_for token_response oauth_authorized_receivers
                 self req w He Hs).
      repeat split.
Qed.

Lemma load_token_session (w : world) :
  sess_client_id (session (load_token w).2) = sess_client_id (session w) /\
  wc_client_id (sess__client (session (load_token w).2))
    = wc_client_id (sess__client (session w)) /\
  wc_token (sess__client (session (load_token w).2)) = token_storage w /\
  sess_state (session (load_token w).2) = sess_state (session w) /\
  flask_session (load_token w).2 = flask_session w /\
  token_storage (load_token w).2 = token_storage w /\
  rng (load_token w).2 = rng w /\
  trace (load_token w).2 = trace w.
Proof.
  unfold load_token, blueprint_token, mbind, M_bind, get_world,
    modify_session, modify, mret, M_ret.
  simpl. destruct (token_truthy (token_storage w)); repeat split.
Qed.

(** X7. The source of states that the constructor gives the session (the
    blueprint's own [state], or the generator when it has none) is set
    up by construction and kept by [login], [authorized], the [client_id]
    setter and [load_token]. *)
Theorem state_source_is_invariant :
  (forall a : InitArgs, state_source_agrees (init_blueprint a) (init_world a)) /\
  (forall (self : OAuth2ConsumerBlueprint) (req : Request) (w : world)
          (value : option string),
     state_source_agrees self w ->
     state_source_agrees self (login_ self req w).2 /\
     state_source_agrees self (authorized_ self req w).2 /\
     state_source_agrees self (set_client_id value w).2 /\
     state_source_agrees self (load_token w).2).
Proof.
  split.
  - intros a. reflexivity.
  - intros self req w value Hsrc. unfold state_source_agrees in *.
    destruct (login_effects self req w Hsrc)
      as (_ & _ & _ & _ & _ & _ & _ & Hl & _).
    destruct (authorized_session_frame self req w) as (_ & _ & Ha & _).
    destruct (load_token_session w) as (_ & _ & _ & Ht & _).
    rewrite Hl, Ha, Ht. repeat split; exact Hsrc.
Qed.

(** X8. Only the setter changes the client id: what [client_id] reads,
    and the client id of the session's internal client, are the
    constructor's [client_id] right after a construction without a
    prebuilt client; a prebuilt client that is passed to the constructor
    is the session's internal client; and [login], [authorized] and
    [load_token] leave both client ids alone. *)
Theorem client_id_changes_only_by_setter
    (self : OAuth2ConsumerBlueprint) (req : Request) (w : world)
    (Hsrc : state_source_agrees self w) :
  (forall a : InitArgs,
     init_client a = None ->
     client_id (init_world a) = init_client_id a /\
     wc_client_id (sess__client (session (init_world a))) = init_client_id a) /\
  (forall (a : InitArgs) (c : WebApplicationClient),
     init_client a = Some c ->
     sess__client (session (init_world a)) = c) /\
  (client_id (login_ self req w).2 = client_id w /\
   wc_client_id (sess__client (session (login_ self req w).2))
     = wc_client_id (sess__client (session w))) /\
  (client_id (authorized_ self req w).2 = client_id w /\
   wc_client_id (sess__client (session (authorized_ self req w).2))
     = wc_client_id (sess__client (session w))) /\
  (client_id (load_token w).2 = client_id w /\
   wc_client_id (sess__client (session (load_token w).2))
     = wc_client_id (sess__client (session w))).
Proof.
  unfold client_id.
  destruct (login_effects self req w Hsrc)
    as (_ & _ & _ & _ & _ & Hl1 & Hl2 & _).
  destruct (authorized_session_frame self req w) as (Ha1 & Ha2 & _).
  destruct (load_token_session w) as (Ht1 & Ht2 & _).
  rewrite Hl1, Hl2, Ha1, Ha2, Ht1, Ht2.
  split; [|split; [|repeat split]].
  - intros a Hclient. unfold init_world, init_session.
    cbn [session]. rewrite Hclient. split; reflexivity.
  - intros a c Hclient. unfold init_world, init_session.
    cbn [session]. rewrite Hclient. reflexivity.
Qed.

(** X9. [load_token] copies the stored token into the session and into
    the session's internal client and changes nothing outside the
    session object; doing it twice is the same as doing it once. *)
Theorem load_token_copies_stored_token (w : world) :
  sess_token (session (load_token w).2) = token_storage w /\
  wc_token (sess__client (session (load_token w).2)) = token_storage w /\
  flask_session (load_token w).2 = flask_session w /\
  token_storage (load_token w).2 = token_storage w /\
  trace (load_token w).2 = trace w /\
  load_token (load_token w).2 = load_token w.
Proof.
  destruct (load_token_session w) as (_ & _ & Hc & _ & Hf & Hs & _ & Ht).
  rewrite load_token_session_token, Hc, Hf, Hs, Ht.
  repeat split.
  unfold load_token, blueprint_token, mbind, M_bind, get_world,
    modify_session, modify, mret, M_ret.
  simpl. destruct (token_truthy (token_storage w)) eqn:Htt; simpl;
    rewrite ?Htt; reflexivity.
Qed.

(** X10. After a grant that no receiver vetoes, [load_token] loads
    exactly the exchanged token.  After a vetoed grant the session
    object still holds the vetoed token (the exchange left it there),
    and [load_token] puts back what the store held before. *)
Theorem load_token_after_grant
    (self : OAuth2ConsumerBlueprint) (req : Request) (w : world)
    (st : string) (token : Token)
    (Herr : str_truthy (req_args req !! "error") = false)
    (Hst : flask_session w !! state_key self = Some st)
    (Hex : token_response (fetch_args self req st) = Ok token) :
  sess_token (session (authorized_ self req w).2) = Some token /\
  (~ vetoed oauth_authorized_receivers token ->
   sess_token (session (load_token (authorized_ self req w).2).2) = Some token /\
   wc_token (sess__client (session (load_token (authorized_ self req w).2).2))
     = Some token) /\
  (vetoed oauth_authorized_receivers token ->
   sess_token (session (load_token (authorized_ self req w).2).2)
     = token_storage w /\
   wc_token (sess__client (session (load_token (authorized_ self req w).2).2))
     = token_storage w).
Proof.
  destruct (load_token_session (authorized_ self req w).2)
    as (_ & _ & Hc & _).
  rewrite load_token_session_token, Hc.
  rewrite (authorized_exchange_succeeds
             url_for token_response oauth_authorized_receivers
             self req w st token Herr Hst Hex).
  cbn [snd]. unfold world_after_grant, world_at_exchange.
  cbn [session token_storage with_token sess_token].
  split; [reflexivity|]. split; intros Hv.
  - destruct (any_veto _) eqn:Hany.
    + exfalso. apply Hv.
      apply (any_veto_vetoed oauth_authorized_receivers token), Hany.
    + split; reflexivity.
  - apply (any_veto_vetoed oauth_authorized_receivers token) in Hv.
    rewrite Hv. split; reflexivity.
Qed.

(** X14. On a successful exchange the receivers are told of the token
    exactly once, after the state has been deleted and the exchange
    made, and before the store is written; the write follows only when
    no receiver vetoes. *)
Theorem authorized_grant_events_in_order
    (self : OAuth2ConsumerBlueprint) (req : Request) (w : world)
    (st : string) (token : Token)
    (Herr : str_truthy (req_args req !! "error") = false)
    (Hst : flask_session w !! state_key self = Some st)
    (Hex : token_response (fetch_args self req st) = Ok token) :
  exists rest,
    trace (authorized_ self req w).2 =
      (trace w ++ [SessionDel (state_key self);
                   FetchToken (fetch_args self req st);
                   OAuthAuthorizedSent token] ++ rest)%list /\
    (vetoed oauth_authorized_receivers token -> rest = []) /\
    (~ vetoed oauth_authorized_receivers token -> rest = [TokenSet token]).
Proof.
  rewrite (authorized_exchange_succeeds
             url_for token_response oauth_authorized_receivers
             self req w st token Herr Hst Hex).
  cbn [snd]. unfold world_after_grant, world_at_exchange. cbn [trace].
  destruct (any_veto _) eqn:Hany.
  - exists []. rewrite <- !app_assoc. split; [reflexivity|].
    split; [reflexivity|]. intros Hv. exfalso. apply Hv.
    apply (any_veto_vetoed oauth_authorized_receivers token), Hany.
  - exists [TokenSet token]. rewrite <- !app_assoc. split; [reflexivity|].
    split; [|reflexivity]. intros Hv.
    apply (any_veto_vetoed oauth_authorized_receivers token) in Hv.
    rewrite Hv in Hany. discriminate.
Qed.

End FlowFacts.


(** * Properties of the URL functions *)

Lemma append_nil_l (s : string) : "" ++ s = s.
Proof. reflexivity. Qed.

Lemma append_cons (c : ascii) (a s : string) :
  String c a ++ s = String c (a ++ s).
Proof. reflexivity. Qed.

Lemma append_nil_r (s : string) : s ++ "" = s.
Proof.
  induction s as [|c s IH]; [reflexivity|].
  rewrite append_cons, IH. reflexivity.
Qed.

Lemma append_assoc (a b c : string) : (a ++ b) ++ c = a ++ (b ++ c).
Proof.
  induction a as [|x a IH]; [reflexivity|].
  rewrite !append_cons, IH. reflexivity.
Qed.

(** *** [break] *)

Lemma break_app (p : ascii -> bool) (a r : string) :
  no_char p a = true -> empty_or_starts p r = true ->
  URL.break p (a ++ r) = (a, r).
Proof.
  unfold no_char. induction a as [|c a IH]; intros Ha Hr.
  - rewrite append_nil_l. destruct r as [|d r]; [reflexivity|].
    simpl in Hr. simpl. rewrite Hr. reflexivity.
  - simpl in Ha. apply andb_true_iff in Ha as [Hc Ha].
    rewrite append_cons. simpl.
    apply negb_true_iff in Hc. rewrite Hc, (IH Ha Hr). reflexivity.
Qed.

Lemma break_spec (p : ascii -> bool) (s : string) :
  no_char p (URL.break p s).1 = true /\
  empty_or_starts p (URL.break p s).2 = true /\
  (URL.break p s).1 ++ (URL.break p s).2 = s.
Proof.
  unfold no_char. induction s as [|c s IH]; [repeat split|].
  simpl. destruct (p c) eqn:Hc.
  - simpl. rewrite Hc. repeat split.
  - destruct (URL.break p s) as [a b]. simpl in *.
    destruct IH as (Ha & Hb & Hs).
    rewrite append_cons, Hc, Ha, Hs. repeat split. exact Hb.
Qed.

Lemma no_char_app (p : ascii -> bool) (a b : string) :
  no_char p (a ++ b) = no_char p a && no_char p b.
Proof.
  unfold no_char. induction a as [|c a IH]; [reflexivity|].
  rewrite append_cons. simpl. rewrite IH, andb_assoc. reflexivity.
Qed.

Lemma no_char_tail (p : ascii -> bool) (s : string) :
  no_char p s = true -> no_char p (URL.tail s) = true.
Proof.
  destruct s as [|c s]; [intros; reflexivity|].
  unfold no_char. simpl. intros H. apply andb_true_iff in H. apply H.
Qed.

Lemma no_char_weaken (p q : ascii -> bool) (s : string) :
  (forall c, q c = true -> p c = true) ->
  no_char p s = true -> no_char q s = true.
Proof.
  intros Hpq. unfold no_char. induction s as [|c s IH]; [reflexivity|].
  simpl. intros H. apply andb_true_iff in H as [Hc Hs].
  rewrite (IH Hs), andb_true_r. apply negb_true_iff.
  apply negb_true_iff in Hc. destruct (q c) eqn:Hq; [|reflexivity].
  rewrite (Hpq c Hq) in Hc. discriminate.
Qed.

Lemma scheme_chars_no_colon (s : string) :
  URL.all_chars URL.is_scheme_char s = true ->
  no_char (URL.is_char ":") s = true.
Proof.
  unfold no_char. induction s as [|c s IH]; [reflexivity|].
  cbn [URL.all_chars]. intros H. apply andb_true_iff in H as [Hc Hs].
  rewrite (IH Hs), andb_true_r. apply negb_true_iff.
  unfold URL.is_char. destruct (Ascii.eqb_spec ":" c) as [<-|]; [|reflexivity].
  discriminate Hc.
Qed.


Lemma nonempty_false (s : string) : URL.nonempty s = false -> s = "".
Proof.
  unfold URL.nonempty. intros H. apply negb_false_iff in H.
  apply String.eqb_eq in H. exact H.
Qed.

Lemma nonempty_cons (c : ascii) (s : string) : URL.nonempty (String c s) = true.
Proof. reflexivity. Qed.

Lemma nonempty_app_l (a b : string) :
  URL.nonempty a = true -> URL.nonempty (a ++ b) = true.
Proof. destruct a; [discriminate | reflexivity]. Qed.

(** *** Characters *)

(** A statement about every character, checked on each of them. *)
Ltac each_char c :=
  destruct c as [[] [] [] [] [] [] [] []]; try reflexivity; try discriminate.

Lemma alpha_not_c0 (c : ascii) :
  URL.is_alpha c = true -> URL.is_c0_control_or_space c = false.
Proof. each_char c. Qed.

Lemma scheme_char_safe (c : ascii) :
  URL.is_scheme_char c = true -> URL.is_unsafe_byte c = false.
Proof. each_char c. Qed.

Lemma lower_char_idem (c : ascii) :
  URL.lower_char (URL.lower_char c) = URL.lower_char c.
Proof. each_char c. Qed.

Lemma lower_char_scheme (c : ascii) :
  URL.is_scheme_char (URL.lower_char c) = URL.is_scheme_char c.
Proof. each_char c. Qed.

Lemma lower_char_alpha (c : ascii) :
  URL.is_alpha (URL.lower_char c) = URL.is_alpha c.
Proof. each_char c. Qed.

Lemma netloc_end_safe (c : ascii) :
  URL.is_netloc_end c = true -> URL.is_unsafe_byte c = false.
Proof. each_char c. Qed.

Lemma segment_char_safe (c : ascii) :
  is_segment_char c = true -> URL.is_unsafe_byte c = false.
Proof. each_char c. Qed.

Lemma segment_char_not_c0 (c : ascii) :
  is_segment_char c = true -> URL.is_c0_control_or_space c = false.
Proof. each_char c. Qed.

(** *** Stripping and removing *)

Lemma remove_id (p : ascii -> bool) (s : string) :
  no_char p s = true -> URL.remove p s = s.
Proof.
  unfold no_char. induction s as [|c s IH]; [reflexivity|].
  cbn [URL.all_chars URL.remove]. intros H.
  apply andb_true_iff in H as [Hc Hs]. apply negb_true_iff in Hc.
  rewrite Hc, (IH Hs). reflexivity.
Qed.

Lemma remove_app (p : ascii -> bool) (a b : string) :
  URL.remove p (a ++ b) = URL.remove p a ++ URL.remove p b.
Proof.
  induction a as [|c a IH]; [reflexivity|].
  rewrite append_cons. cbn [URL.remove]. destruct (p c);
    rewrite IH; reflexivity.
Qed.

Lemma no_char_remove (p : ascii -> bool) (s : string) :
  no_char p (URL.remove p s) = true.
Proof.
  unfold no_char. induction s as [|c s IH]; [reflexivity|].
  cbn [URL.remove]. destruct (p c) eqn:Hc; [exact IH|].
  cbn [URL.all_chars]. rewrite Hc, IH. reflexivity.
Qed.

Lemma lstrip_id (p : ascii -> bool) (s : string) :
  empty_or_starts (fun c => negb (p c)) s = true -> URL.lstrip p s = s.
Proof.
  destruct s as [|c s]; [reflexivity|].
  cbn [empty_or_starts URL.lstrip]. intros H. apply negb_true_iff in H.
  rewrite H. reflexivity.
Qed.


Lemma safe_cleaned (s : string) : safe (cleaned s) = true.
Proof. apply no_char_remove. Qed.

Lemma safe_app (a b : string) : safe (a ++ b) = safe a && safe b.
Proof. apply no_char_app. Qed.

Lemma remove_starts (p q : ascii -> bool) (s : string) :
  (forall c, q c = true -> p c = false) ->
  empty_or_starts q s = true -> empty_or_starts q (URL.remove p s) = true.
Proof.
  intros Hqp. destruct s as [|c s]; [reflexivity|].
  cbn [empty_or_starts URL.remove]. intros Hc.
  rewrite (Hqp c Hc). cbn [empty_or_starts]. exact Hc.
Qed.

(** *** Lower case *)

Lemma lower_idem (s : string) : URL.lower (URL.lower s) = URL.lower s.
Proof.
  induction s as [|c s IH]; [reflexivity|].
  cbn [URL.lower]. rewrite lower_char_idem, IH. reflexivity.
Qed.

Lemma lower_scheme_chars (s : string) :
  URL.all_chars URL.is_scheme_char (URL.lower s)
    = URL.all_chars URL.is_scheme_char s.
Proof.
  induction s as [|c s IH]; [reflexivity|].
  cbn [URL.lower URL.all_chars]. rewrite lower_char_scheme, IH. reflexivity.
Qed.

Lemma lower_first_alpha (s : string) :
  URL.first_is_alpha (URL.lower s) = URL.first_is_alpha s.
Proof.
  destruct s as [|c s]; [reflexivity|]. cbn [URL.lower URL.first_is_alpha].
  apply lower_char_alpha.
Qed.

Lemma valid_scheme_lower (s : string) :
  URL.first_is_alpha s = true -> URL.all_chars URL.is_scheme_char s = true ->
  valid_scheme (URL.lower s) = true.
Proof.
  intros Ha Hc. unfold valid_scheme.
  rewrite lower_first_alpha, lower_scheme_chars, lower_idem, Ha, Hc.
  rewrite String.eqb_refl. reflexivity.
Qed.

Lemma valid_scheme_parts (s : string) :
  valid_scheme s = true ->
  URL.first_is_alpha s = true /\
  URL.all_chars URL.is_scheme_char s = true /\ URL.lower s = s.
Proof.
  unfold valid_scheme. intros H.
  apply andb_true_iff in H as [H Hl]. apply andb_true_iff in H as [Ha Hc].
  apply String.eqb_eq in Hl. auto.
Qed.

Lemma valid_scheme_nonempty (s : string) :
  valid_scheme s = true -> URL.nonempty s = true.
Proof.
  intros H. apply valid_scheme_parts in H as (Ha & _).
  destruct s; [discriminate | reflexivity].
Qed.

Lemma scheme_chars_safe (s : string) :
  URL.all_chars URL.is_scheme_char s = true -> safe s = true.
Proof.
  unfold safe, no_char. induction s as [|c s IH]; [reflexivity|].
  cbn [URL.all_chars]. intros H. apply andb_true_iff in H as [Hc Hs].
  rewrite (scheme_char_safe c Hc), (IH Hs). reflexivity.
Qed.

(** *** [urlsplit], step by step *)

Lemma urlsplit_default_unfold (url dflt : string) :
  URL.urlsplit_default url dflt =
    let url := cleaned url in
    let dflt := URL.remove URL.is_unsafe_byte
                  (URL.strip URL.is_c0_control_or_space dflt) in
    if URL.nonempty (URL.break (URL.is_char ":") url).2
       && URL.first_is_alpha url
       && URL.all_chars URL.is_scheme_char (URL.break (URL.is_char ":") url).1
    then split_rest (URL.lower (URL.break (URL.is_char ":") url).1)
                    (URL.tail (URL.break (URL.is_char ":") url).2)
    else split_rest dflt url.
Proof.
  unfold URL.urlsplit_default, cleaned, split_rest.
  destruct (URL.break (URL.is_char ":") _) as [pre rest]. cbn [fst snd].
  destruct (URL.nonempty rest && _ && _); reflexivity.
Qed.

Lemma split_rest_scheme (sch url1 : string) :
  URL.scheme (split_rest sch url1) = sch.
Proof.
  unfold split_rest.
  destruct (if URL.starts_with_slashes url1 then _ else _) as [nl url2].
  destruct (URL.break (URL.is_char "#") url2) as [url3 frag].
  destruct (URL.break (URL.is_char "?") url3) as [pth qry].
  reflexivity.
Qed.

(** The other components do not depend on the scheme. *)
Lemma split_rest_components (sch sch' url1 : string) :
  URL.netloc (split_rest sch url1) = URL.netloc (split_rest sch' url1) /\
  URL.path (split_rest sch url1) = URL.path (split_rest sch' url1) /\
  URL.query (split_rest sch url1) = URL.query (split_rest sch' url1) /\
  URL.fragment (split_rest sch url1) = URL.fragment (split_rest sch' url1).
Proof.
  unfold split_rest.
  destruct (if URL.starts_with_slashes url1 then _ else _) as [nl url2].
  destruct (URL.break (URL.is_char "#") url2) as [url3 frag].
  destruct (URL.break (URL.is_char "?") url3) as [pth qry].
  repeat split.
Qed.

(** [urlsplit] on a text that begins with a scheme and a colon. *)
Lemma urlsplit_scheme_colon (s rest dflt : string) :
  valid_scheme s = true ->
  URL.urlsplit_default (s ++ String ":" rest) dflt
    = split_rest s (URL.remove URL.is_unsafe_byte rest).
Proof.
  intros Hv. destruct (valid_scheme_parts s Hv) as (Ha & Hc & Hl).
  rewrite urlsplit_default_unfold. cbv zeta.
  assert (Hclean : cleaned (s ++ String ":" rest)
                   = s ++ String ":" (URL.remove URL.is_unsafe_byte rest)).
  { unfold cleaned. rewrite lstrip_id.
    - rewrite remove_app, (remove_id _ s (scheme_chars_safe s Hc)).
      reflexivity.
    - destruct s as [|c s]; [discriminate|].
      rewrite append_cons. cbn [empty_or_starts]. cbn [URL.first_is_alpha] in Ha.
      rewrite (alpha_not_c0 c Ha). reflexivity. }
  rewrite Hclean.
  rewrite (break_app (URL.is_char ":") s
             (String ":" (URL.remove URL.is_unsafe_byte rest))
             (scheme_chars_no_colon s Hc) eq_refl).
  cbn [fst snd URL.tail]. rewrite nonempty_cons, Hc. cbn [andb].
  assert (Hfa : URL.first_is_alpha
                  (s ++ String ":" (URL.remove URL.is_unsafe_byte rest)) = true)
    by (destruct s; [discriminate | exact Ha]).
  rewrite Hfa, Hl. reflexivity.
Qed.

(** *** [urlunsplit], written out *)

Lemma prefix_slash (p : string) :
  String.prefix "/" p = true -> exists r, p = String "/" r.
Proof.
  destruct p as [|c r]; cbn [String.prefix]; [discriminate|].
  destruct (ascii_dec "/" c) as [<-|]; [|discriminate].
  intros _. exists r. reflexivity.
Qed.


Lemma slashed_path_starts (p : string) :
  empty_or_starts (URL.is_char "/") (slashed_path p) = true.
Proof.
  unfold slashed_path. destruct (URL.nonempty p) eqn:Hp.
  - destruct (String.prefix "/" p) eqn:Hs; simpl.
    + destruct (prefix_slash p Hs) as [r ->]. reflexivity.
    + reflexivity.
  - apply nonempty_false in Hp. subst. reflexivity.
Qed.


(** What [urlunsplit] writes for a scheme and a network location. *)
Lemma urlunsplit_netloc (s n p q f : string) :
  URL.nonempty s = true -> URL.nonempty n = true ->
  URL.urlunsplit (URL.mkSplit s n p q f) =
    s ++ String ":" ("//" ++ n ++ slashed_path p ++ query_part q ++ fragment_part f).
Proof.
  intros Hs Hn. unfold URL.urlunsplit, slashed_path, query_part, fragment_part.
  cbn [URL.scheme URL.netloc URL.path URL.query URL.fragment].
  rewrite Hs, Hn. cbn [orb].
  destruct (URL.nonempty q), (URL.nonempty f);
    change (?a ++ ":" ++ ?b) with (a ++ String ":" b);
    rewrite ?append_assoc, ?append_cons, ?append_nil_l, ?append_assoc,
      ?append_nil_r; reflexivity.
Qed.


(** What [urlunsplit] writes for a scheme: the scheme, a colon, the rest. *)
Lemma urlunsplit_scheme (r : URL.SplitResult) :
  URL.nonempty (URL.scheme r) = true ->
  exists rest, URL.urlunsplit r = URL.scheme r ++ String ":" rest.
Proof.
  intros Hs. unfold URL.urlunsplit. rewrite Hs.
  change (?a ++ ":" ++ ?b) with (a ++ String ":" b).
  destruct (URL.nonempty (URL.query r)), (URL.nonempty (URL.fragment r));
    rewrite ?append_assoc, ?append_cons; eexists; reflexivity.
Qed.

(** The scheme survives [urlunsplit] followed by [urlsplit], whatever
    the other components. *)
Lemma urlsplit_urlunsplit_scheme (r : URL.SplitResult) :
  valid_scheme (URL.scheme r) = true ->
  URL.scheme (URL.urlsplit (URL.urlunsplit r)) = URL.scheme r.
Proof.
  intros Hv.
  destruct (urlunsplit_scheme r (valid_scheme_nonempty _ Hv)) as [rest ->].
  unfold URL.urlsplit. rewrite (urlsplit_scheme_colon _ _ _ Hv).
  apply split_rest_scheme.
Qed.

(** *** The text after the scheme *)

Lemma rest_starts_netloc_end (p q f : string) :
  empty_or_starts URL.is_netloc_end
    (slashed_path p ++ query_part q ++ fragment_part f) = true.
Proof.
  pose proof (slashed_path_starts p) as Hp.
  destruct (slashed_path p) as [|c sp].
  - rewrite append_nil_l. unfold query_part, fragment_part.
    destruct (URL.nonempty q); [reflexivity|].
    destruct (URL.nonempty f); reflexivity.
  - rewrite append_cons. cbn [empty_or_starts] in *.
    unfold URL.is_netloc_end. rewrite Hp. reflexivity.
Qed.

















(** *** Two slashes at the start *)





(** *** What [urlsplit] returns *)

Lemma break_hash_query_path_starts (url2 : string) :
  empty_or_starts URL.is_netloc_end url2 = true ->
  empty_or_starts (URL.is_char "/")
    (URL.break (URL.is_char "?") (URL.break (URL.is_char "#") url2).1).1 = true.
Proof.
  destruct url2 as [|c r]; [reflexivity|].
  cbn [empty_or_starts]. unfold URL.is_netloc_end, URL.is_char. intros H.
  cbn [URL.break]. unfold URL.is_char.
  destruct (Ascii.eqb_spec "#" c) as [<-|Hh]; [reflexivity|].
  destruct (URL.break (Ascii.eqb "#") r) as [a b]. cbn [fst URL.break].
  destruct (Ascii.eqb_spec "?" c) as [<-|Hq]; [reflexivity|].
  destruct (URL.break (Ascii.eqb "?") a) as [a' b']. cbn [fst empty_or_starts].
  destruct (Ascii.eqb "/" c); [reflexivity | discriminate H].
Qed.

Lemma safe_tail (s : string) : safe s = true -> safe (URL.tail s) = true.
Proof. apply no_char_tail. Qed.

Lemma safe_break (p : ascii -> bool) (s : string) :
  safe s = true ->
  safe (URL.break p s).1 = true /\ safe (URL.break p s).2 = true.
Proof.
  intros Hs. destruct (break_spec p s) as (_ & _ & H).
  rewrite <- H, safe_app in Hs. apply andb_true_iff in Hs. exact Hs.
Qed.

(** The components that [urlsplit] finds behind the scheme. *)
Lemma split_rest_wf (sch url1 : string) :
  safe url1 = true ->
  no_char URL.is_netloc_end (URL.netloc (split_rest sch url1)) = true /\
  no_char (URL.is_char "?") (URL.path (split_rest sch url1)) = true /\
  no_char (URL.is_char "#") (URL.path (split_rest sch url1)) = true /\
  no_char (URL.is_char "#") (URL.query (split_rest sch url1)) = true /\
  (URL.nonempty (URL.netloc (split_rest sch url1)) = true ->
   empty_or_starts (URL.is_char "/") (URL.path (split_rest sch url1)) = true) /\
  safe (URL.netloc (split_rest sch url1)) = true /\
  safe (URL.path (split_rest sch url1)) = true /\
  safe (URL.query (split_rest sch url1)) = true /\
  safe (URL.fragment (split_rest sch url1)) = true.
Proof.
  intros Hsafe. unfold split_rest.
  assert (Hnl : forall nl url2,
    (if URL.starts_with_slashes url1
     then URL.break URL.is_netloc_end (URL.tail (URL.tail url1))
     else ("", url1)) = (nl, url2) ->
    no_char URL.is_netloc_end nl = true /\
    (URL.nonempty nl = true -> empty_or_starts URL.is_netloc_end url2 = true) /\
    safe nl = true /\ safe url2 = true).
  { intros nl url2. destruct (URL.starts_with_slashes url1).
    - intros Hb.
      destruct (break_spec URL.is_netloc_end (URL.tail (URL.tail url1)))
        as (H1 & H2 & _).
      destruct (safe_break URL.is_netloc_end (URL.tail (URL.tail url1)))
        as (H3 & H4); [apply safe_tail, safe_tail, Hsafe|].
      rewrite Hb in H1, H2, H3, H4.
      split; [exact H1|]. split; [intros _; exact H2|]. split; assumption.
    - intros Hb. inversion Hb. subst.
      split; [reflexivity|]. split; [discriminate|]. split; [reflexivity|].
      exact Hsafe. }
  destruct (if URL.starts_with_slashes url1 then _ else _) as [nl url2].
  destruct (Hnl nl url2 eq_refl) as (Hnl1 & Hnl2 & Hnl3 & Hs2). clear Hnl.
  pose proof (break_hash_query_path_starts url2) as Hstart.
  destruct (break_spec (URL.is_char "#") url2) as (Hh1 & _ & _).
  destruct (safe_break (URL.is_char "#") url2 Hs2) as (Hs3 & Hsf).
  destruct (URL.break (URL.is_char "#") url2) as [url3 frag].
  cbn [fst snd] in *.
  destruct (break_spec (URL.is_char "?") url3) as (Hq1 & _ & Hq3).
  destruct (safe_break (URL.is_char "?") url3 Hs3) as (Hsp & Hsq).
  destruct (URL.break (URL.is_char "?") url3) as [pth qry] eqn:Hbq.
  cbn [fst snd] in *.
  cbn [URL.scheme URL.netloc URL.path URL.query URL.fragment].
  rewrite <- Hq3, no_char_app in Hh1. apply andb_true_iff in Hh1 as [Hp Hq].
  split; [exact Hnl1|]. split; [exact Hq1|].
  split; [exact Hp|]. split; [apply no_char_tail; exact Hq|].
  split; [intros Hn; apply Hstart, Hnl2, Hn|].
  split; [exact Hnl3|]. split; [exact Hsp|].
  split; apply safe_tail; assumption.
Qed.

Lemma break_prefix_first_alpha (p : ascii -> bool) (s : string) :
  URL.first_is_alpha s = true ->
  (forall c, URL.is_alpha c = true -> p c = false) ->
  URL.first_is_alpha (URL.break p s).1 = true.
Proof.
  destruct s as [|c s]; [discriminate|].
  cbn [URL.first_is_alpha URL.break]. intros Ha Hp.
  rewrite (Hp c Ha). destruct (URL.break p s). exact Ha.
Qed.

Lemma alpha_not_colon (c : ascii) :
  URL.is_alpha c = true -> URL.is_char ":" c = false.
Proof.
  intros H. destruct (URL.is_char ":" c) eqn:E; [|reflexivity].
  unfold URL.is_char in E. apply Ascii.eqb_eq in E. subst c. discriminate H.
Qed.

Lemma safe_strip (d : string) :
  safe (URL.remove URL.is_unsafe_byte d) = true.
Proof. apply no_char_remove. Qed.

(** [urlsplit] returns either a scheme in lower case that begins with a
    letter or none; a network location without slash, question mark and
    hash; a path without question mark and hash, which begins with a
    slash when it follows a network location; a query without hash; and
    no tab or line end anywhere. *)
Lemma urlsplit_wf (u : string) :
  (URL.nonempty (URL.scheme (URL.urlsplit u)) = true ->
   valid_scheme (URL.scheme (URL.urlsplit u)) = true) /\
  no_char URL.is_netloc_end (URL.netloc (URL.urlsplit u)) = true /\
  no_char (URL.is_char "?") (URL.path (URL.urlsplit u)) = true /\
  no_char (URL.is_char "#") (URL.path (URL.urlsplit u)) = true /\
  no_char (URL.is_char "#") (URL.query (URL.urlsplit u)) = true /\
  (URL.nonempty (URL.netloc (URL.urlsplit u)) = true ->
   empty_or_starts (URL.is_char "/") (URL.path (URL.urlsplit u)) = true) /\
  safe (URL.netloc (URL.urlsplit u)) = true /\
  safe (URL.path (URL.urlsplit u)) = true /\
  safe (URL.query (URL.urlsplit u)) = true /\
  safe (URL.fragment (URL.urlsplit u)) = true.
Proof.
  unfold URL.urlsplit. rewrite urlsplit_default_unfold. cbv zeta.
  destruct (URL.nonempty (URL.break (URL.is_char ":") (cleaned u)).2
            && URL.first_is_alpha (cleaned u)
            && URL.all_chars URL.is_scheme_char
                 (URL.break (URL.is_char ":") (cleaned u)).1) eqn:Hc.
  - apply andb_true_iff in Hc as [Hc Hch].
    apply andb_true_iff in Hc as [_ Hfa].
    split.
    + intros _. rewrite split_rest_scheme. apply valid_scheme_lower.
      * apply break_prefix_first_alpha; [exact Hfa | apply alpha_not_colon].
      * exact Hch.
    + apply split_rest_wf. apply safe_tail.
      apply (safe_break (URL.is_char ":") (cleaned u)), safe_cleaned.
  - split.
    + rewrite split_rest_scheme. discriminate.
    + apply split_rest_wf, safe_cleaned.
Qed.

(** *** Round trip *)

(** The network location survives [urlunsplit] followed by [urlsplit],
    whatever the path, the query and the fragment. *)
Lemma urlsplit_urlunsplit_netloc (s n p q f : string) :
  valid_scheme s = true ->
  URL.nonempty n = true -> no_char URL.is_netloc_end n = true ->
  safe n = true ->
  URL.netloc (URL.urlsplit (URL.urlunsplit (URL.mkSplit s n p q f))) = n.
Proof.
  intros Hv Hn Hnc Hsafe.
  rewrite (urlunsplit_netloc s n p q f (valid_scheme_nonempty s Hv) Hn).
  unfold URL.urlsplit. rewrite (urlsplit_scheme_colon _ _ _ Hv).
  rewrite !remove_app, (remove_id _ n Hsafe).
  change (URL.remove URL.is_unsafe_byte "//") with "//".
  rewrite <- !remove_app.
  unfold split_rest.
  change (URL.starts_with_slashes ("//" ++ ?z)) with true.
  change (URL.tail (URL.tail ("//" ++ ?z))) with z.
  cbn iota.
  rewrite (break_app URL.is_netloc_end n _ Hnc
             (remove_starts _ _ _ netloc_end_safe
                (rest_starts_netloc_end p q f))).
  destruct (URL.break (URL.is_char "#") _) as [url3 frag].
  destruct (URL.break (URL.is_char "?") url3) as [pth qry].
  reflexivity.
Qed.



(** *** The [with_...] functions *)

Lemma absolute_valid_scheme (u : string) :
  URL.is_absolute u = true -> valid_scheme (URL.scheme (URL.urlsplit u)) = true.
Proof. unfold URL.is_absolute. apply urlsplit_wf. Qed.

Lemma absolute_nonempty (u : string) :
  URL.is_absolute u = true -> URL.nonempty u = true.
Proof. destruct u; [discriminate | reflexivity]. Qed.

(** A URL written from a scheme and a network location has both. *)
Lemma urlunsplit_origin (s n p q f : string) :
  valid_scheme s = true ->
  URL.nonempty n = true -> no_char URL.is_netloc_end n = true ->
  safe n = true ->
  URL.scheme (URL.urlsplit (URL.urlunsplit (URL.mkSplit s n p q f))) = s /\
  URL.netloc (URL.urlsplit (URL.urlunsplit (URL.mkSplit s n p q f))) = n.
Proof.
  intros Hv Hn Hnc Hns. split.
  - apply (urlsplit_urlunsplit_scheme (URL.mkSplit s n p q f)). exact Hv.
  - apply urlsplit_urlunsplit_netloc; assumption.
Qed.

Lemma with_scheme_scheme (u s : string) :
  valid_scheme s = true -> URL.scheme (URL.urlsplit (URL.with_scheme u s)) = s.
Proof.
  intros Hv. unfold URL.with_scheme.
  apply (urlsplit_urlunsplit_scheme (URL.mkSplit s _ _ _ _)). exact Hv.
Qed.

Lemma with_scheme_netloc (u s : string) :
  valid_scheme s = true ->
  URL.nonempty (URL.netloc (URL.urlsplit u)) = true ->
  URL.netloc (URL.urlsplit (URL.with_scheme u s)) = URL.netloc (URL.urlsplit u).
Proof.
  intros Hv Hn. unfold URL.with_scheme.
  apply urlunsplit_origin; [exact Hv | exact Hn | apply urlsplit_wf ..].
Qed.

Lemma with_netloc_origin (u n : string) :
  URL.is_absolute u = true ->
  URL.nonempty n = true -> no_char URL.is_netloc_end n = true ->
  safe n = true ->
  URL.scheme (URL.urlsplit (URL.with_netloc u n)) = URL.scheme (URL.urlsplit u) /\
  URL.netloc (URL.urlsplit (URL.with_netloc u n)) = n.
Proof.
  intros Ha Hn Hnc Hns. apply absolute_valid_scheme in Ha.
  unfold URL.with_netloc. apply urlunsplit_origin; assumption.
Qed.

Lemma with_path_origin (u p : string) :
  URL.is_absolute u = true ->
  URL.nonempty (URL.netloc (URL.urlsplit u)) = true ->
  URL.scheme (URL.urlsplit (URL.with_path u p)) = URL.scheme (URL.urlsplit u) /\
  URL.netloc (URL.urlsplit (URL.with_path u p)) = URL.netloc (URL.urlsplit u).
Proof.
  intros Ha Hn. apply absolute_valid_scheme in Ha. unfold URL.with_path.
  apply urlunsplit_origin; [exact Ha | exact Hn | apply urlsplit_wf ..].
Qed.

Lemma with_query_origin (u q : string) :
  URL.is_absolute u = true ->
  URL.nonempty (URL.netloc (URL.urlsplit u)) = true ->
  URL.scheme (URL.urlsplit (URL.with_query u q)) = URL.scheme (URL.urlsplit u) /\
  URL.netloc (URL.urlsplit (URL.with_query u q)) = URL.netloc (URL.urlsplit u).
Proof.
  intros Ha Hn. apply absolute_valid_scheme in Ha. unfold URL.with_query.
  apply urlunsplit_origin; [exact Ha | exact Hn | apply urlsplit_wf ..].
Qed.

Lemma without_fragment_origin (u : string) :
  URL.is_absolute u = true ->
  URL.nonempty (URL.netloc (URL.urlsplit u)) = true ->
  URL.scheme (URL.urlsplit (URL.without_fragment u))
    = URL.scheme (URL.urlsplit u) /\
  URL.netloc (URL.urlsplit (URL.without_fragment u))
    = URL.netloc (URL.urlsplit u).
Proof.
  intros Ha Hn. apply absolute_valid_scheme in Ha. unfold URL.without_fragment.
  apply urlunsplit_origin; [exact Ha | exact Hn | apply urlsplit_wf ..].
Qed.

(** *** [relative] *)

(** The reference [other], moved to the scheme and network location of
    [self]: the start of three branches of [relative]. *)
Lemma rebased_origin (self other : string) :
  URL.is_absolute self = true ->
  URL.nonempty (URL.netloc (URL.urlsplit self)) = true ->
  let u := URL.with_netloc
             (URL.with_scheme other (URL.scheme (URL.urlsplit self)))
             (URL.netloc (URL.urlsplit self)) in
  URL.is_absolute u = true /\
  URL.scheme (URL.urlsplit u) = URL.scheme (URL.urlsplit self) /\
  URL.netloc (URL.urlsplit u) = URL.netloc (URL.urlsplit self).
Proof.
  intros Ha Hn u.
  pose proof (absolute_valid_scheme self Ha) as Hv.
  assert (Ha1 : URL.is_absolute
                  (URL.with_scheme other (URL.scheme (URL.urlsplit self))) = true).
  { unfold URL.is_absolute. rewrite (with_scheme_scheme other _ Hv). exact Ha. }
  destruct (with_netloc_origin
              (URL.with_scheme other (URL.scheme (URL.urlsplit self)))
              (URL.netloc (URL.urlsplit self)) Ha1 Hn)
    as (Hs & Hnl); [apply urlsplit_wf ..|].
  rewrite (with_scheme_scheme other _ Hv) in Hs.
  split; [|split; assumption].
  unfold URL.is_absolute. fold u in Hs. rewrite Hs. exact Ha.
Qed.

Lemma split_ok (is_ipv6 : string -> bool) (u : string) (r : URL.SplitResult) :
  URLObject.split is_ipv6 u = Ok r <->
  URL.urlsplit_raises is_ipv6 u = false /\ r = URL.urlsplit u.
Proof.
  unfold URLObject.split. destruct (URL.urlsplit_raises is_ipv6 u).
  - split; [discriminate | intros [H _]; discriminate H].
  - split.
    + intros H. injection H as <-. split; reflexivity.
    + intros [_ ->]. reflexivity.
Qed.

Lemma bind_ok {A B : Type} (m : outcome A) (k : A -> outcome B) (r : B) :
  (m ≫= k) = Ok r <-> exists a, m = Ok a /\ k a = Ok r.
Proof.
  destruct m as [a|e]; cbn [mbind outcome_bind].
  - split; [intros H; exists a; split; [reflexivity | exact H]|].
    intros (a' & Ha & Hk). injection Ha as ->. exact Hk.
  - split; [discriminate|]. intros (a' & Ha & _). discriminate Ha.
Qed.

Lemma checked_ok (is_ipv6 : string -> bool) (u v r : string) :
  (URLObject.split is_ipv6 u ≫= fun _ => Ok v) = Ok r <->
  URL.urlsplit_raises is_ipv6 u = false /\ r = v.
Proof.
  rewrite bind_ok. split.
  - intros (a & Ha & Hk). apply split_ok in Ha as [Ha _].
    injection Hk as <-. split; [exact Ha | reflexivity].
  - intros [Hr ->]. exists (URL.urlsplit u). split; [|reflexivity].
    apply split_ok. split; [exact Hr | reflexivity].
Qed.

Lemma with_scheme_ok (is_ipv6 : string -> bool) (u s r : string) :
  URLObject.with_scheme is_ipv6 u s = Ok r <->
  URL.urlsplit_raises is_ipv6 u = false /\ r = URL.with_scheme u s.
Proof. apply checked_ok. Qed.

Lemma with_netloc_ok (is_ipv6 : string -> bool) (u n r : string) :
  URLObject.with_netloc is_ipv6 u n = Ok r <->
  URL.urlsplit_raises is_ipv6 u = false /\ r = URL.with_netloc u n.
Proof. apply checked_ok. Qed.

Lemma with_path_ok (is_ipv6 : string -> bool) (u p r : string) :
  URLObject.with_path is_ipv6 u p = Ok r <->
  URL.urlsplit_raises is_ipv6 u = false /\ r = URL.with_path u p.
Proof. apply checked_ok. Qed.

Lemma with_query_ok (is_ipv6 : string -> bool) (u q r : string) :
  URLObject.with_query is_ipv6 u q = Ok r <->
  URL.urlsplit_raises is_ipv6 u = false /\ r = URL.with_query u q.
Proof. apply checked_ok. Qed.

Lemma without_fragment_ok (is_ipv6 : string -> bool) (u r : string) :
  URLObject.without_fragment is_ipv6 u = Ok r <->
  URL.urlsplit_raises is_ipv6 u = false /\ r = URL.without_fragment u.
Proof. apply checked_ok. Qed.

Lemma path_relative_ok (is_ipv6 : string -> bool) (p rel r : string) :
  URLObject.path_relative is_ipv6 p rel = Ok r <->
  URL.urljoin is_ipv6 p rel = Some r.
Proof.
  unfold URLObject.path_relative. destruct (URL.urljoin is_ipv6 p rel).
  - split; intros H; injection H as <-; reflexivity.
  - split; discriminate.
Qed.

(** The branches of [relative], one by one. *)
Lemma relative_unfold (is_ipv6 : string -> bool) (self other r : string) :
  URLObject.relative is_ipv6 self other = Ok r <->
  URL.urlsplit_raises is_ipv6 other = false /\
  if URL.nonempty (URL.scheme (URL.urlsplit other)) then r = other
  else
    URL.urlsplit_raises is_ipv6 self = false /\
    let u1 := URL.with_scheme other (URL.scheme (URL.urlsplit self)) in
    let u2 := URL.with_netloc u1 (URL.netloc (URL.urlsplit self)) in
    let u3 := URL.with_path u2 (URL.path (URL.urlsplit self)) in
    if URL.nonempty (URL.netloc (URL.urlsplit other)) then r = u1
    else if URL.nonempty (URL.path (URL.urlsplit other)) then
      URL.urlsplit_raises is_ipv6 u1 = false /\
      URL.urlsplit_raises is_ipv6 u2 = false /\
      exists p,
        URL.urljoin is_ipv6 (URL.path (URL.urlsplit self))
          (URL.path (URL.urlsplit other)) = Some p /\
        r = URL.with_path u2 p
    else if URL.nonempty (URL.query (URL.urlsplit other)) then
      URL.urlsplit_raises is_ipv6 u1 = false /\
      URL.urlsplit_raises is_ipv6 u2 = false /\ r = u3
    else if URL.nonempty (URL.fragment (URL.urlsplit other)) then
      URL.urlsplit_raises is_ipv6 u1 = false /\
      URL.urlsplit_raises is_ipv6 u2 = false /\
      URL.urlsplit_raises is_ipv6 u3 = false /\
      r = URL.with_query u3 (URL.query (URL.urlsplit self))
    else r = URL.without_fragment self.
Proof.
  unfold URLObject.relative. rewrite bind_ok. split.
  - intros (o & Ho & H). apply split_ok in Ho as [Hro ->].
    split; [exact Hro|].
    destruct (URL.nonempty (URL.scheme (URL.urlsplit other))).
    { injection H as <-. reflexivity. }
    destruct (URL.nonempty (URL.netloc (URL.urlsplit other))).
    { apply bind_ok in H as (b & Hb & H). apply split_ok in Hb as [Hrs ->].
      apply with_scheme_ok in H as [_ ->]. split; [exact Hrs | reflexivity]. }
    destruct (URL.nonempty (URL.path (URL.urlsplit other))).
    { apply bind_ok in H as (b & Hb & H). apply split_ok in Hb as [Hrs ->].
      apply bind_ok in H as (u1 & H1 & H).
      apply with_scheme_ok in H1 as [_ ->].
      apply bind_ok in H as (u2 & H2 & H).
      apply with_netloc_ok in H2 as [Hr1 ->].
      apply bind_ok in H as (p & Hp & H). apply path_relative_ok in Hp.
      apply with_path_ok in H as [Hr2 ->].
      split; [exact Hrs|]. cbv zeta. split; [exact Hr1|].
      split; [exact Hr2|]. exists p. split; [exact Hp | reflexivity]. }
    destruct (URL.nonempty (URL.query (URL.urlsplit other))).
    { apply bind_ok in H as (b & Hb & H). apply split_ok in Hb as [Hrs ->].
      apply bind_ok in H as (u1 & H1 & H).
      apply with_scheme_ok in H1 as [_ ->].
      apply bind_ok in H as (u2 & H2 & H).
      apply with_netloc_ok in H2 as [Hr1 ->].
      apply with_path_ok in H as [Hr2 ->].
      split; [exact Hrs|]. cbv zeta. split; [exact Hr1|].
      split; [exact Hr2 | reflexivity]. }
    destruct (URL.nonempty (URL.fragment (URL.urlsplit other))).
    { apply bind_ok in H as (b & Hb & H). apply split_ok in Hb as [Hrs ->].
      apply bind_ok in H as (u1 & H1 & H).
      apply with_scheme_ok in H1 as [_ ->].
      apply bind_ok in H as (u2 & H2 & H).
      apply with_netloc_ok in H2 as [Hr1 ->].
      apply bind_ok in H as (u3 & H3 & H).
      apply with_path_ok in H3 as [Hr2 ->].
      apply with_query_ok in H as [Hr3 ->].
      split; [exact Hrs|]. cbv zeta. split; [exact Hr1|].
      split; [exact Hr2|]. split; [exact Hr3 | reflexivity]. }
    apply without_fragment_ok in H as [Hrs ->].
    split; [exact Hrs | reflexivity].
  - intros [Hro H]. exists (URL.urlsplit other).
    split; [apply split_ok; split; [exact Hro | reflexivity]|].
    assert (Hsplit : forall u, URL.urlsplit_raises is_ipv6 u = false ->
              URLObject.split is_ipv6 u = Ok (URL.urlsplit u))
      by (intros u Hu; apply split_ok; split; [exact Hu | reflexivity]).
    destruct (URL.nonempty (URL.scheme (URL.urlsplit other))).
    { rewrite H. reflexivity. }
    destruct H as [Hrs H]. cbv zeta in H.
    destruct (URL.nonempty (URL.netloc (URL.urlsplit other))).
    { apply bind_ok. exists (URL.urlsplit self).
      split; [apply Hsplit, Hrs|].
      apply with_scheme_ok. split; [exact Hro | exact H]. }
    destruct (URL.nonempty (URL.path (URL.urlsplit other))).
    { destruct H as (Hr1 & Hr2 & p & Hp & ->).
      apply bind_ok. exists (URL.urlsplit self).
      split; [apply Hsplit, Hrs|].
      apply bind_ok. eexists. split;
        [apply with_scheme_ok; split; [exact Hro | reflexivity]|].
      apply bind_ok. eexists. split;
        [apply with_netloc_ok; split; [exact Hr1 | reflexivity]|].
      apply bind_ok. exists p. split; [apply path_relative_ok, Hp|].
      apply with_path_ok. split; [exact Hr2 | reflexivity]. }
    destruct (URL.nonempty (URL.query (URL.urlsplit other))).
    { destruct H as (Hr1 & Hr2 & ->).
      apply bind_ok. exists (URL.urlsplit self).
      split; [apply Hsplit, Hrs|].
      apply bind_ok. eexists. split;
        [apply with_scheme_ok; split; [exact Hro | reflexivity]|].
      apply bind_ok. eexists. split;
        [apply with_netloc_ok; split; [exact Hr1 | reflexivity]|].
      apply with_path_ok. split; [exact Hr2 | reflexivity]. }
    destruct (URL.nonempty (URL.fragment (URL.urlsplit other))).
    { destruct H as (Hr1 & Hr2 & Hr3 & ->).
      apply bind_ok. exists (URL.urlsplit self).
      split; [apply Hsplit, Hrs|].
      apply bind_ok. eexists. split;
        [apply with_scheme_ok; split; [exact Hro | reflexivity]|].
      apply bind_ok. eexists. split;
        [apply with_netloc_ok; split; [exact Hr1 | reflexivity]|].
      apply bind_ok. eexists. split;
        [apply with_path_ok; split; [exact Hr2 | reflexivity]|].
      apply with_query_ok. split; [exact Hr3 | reflexivity]. }
    apply without_fragment_ok. split; [exact Hrs | exact H].
Qed.

(** What [relative] returns, when it returns: the reference itself when
    it has a scheme; else a URL with the scheme of the base, and with
    the network location of the reference or, when it has none, the one
    of the base. *)
Lemma relative_ok (is_ipv6 : string -> bool) (self other r : string) :
  URL.is_absolute self = true ->
  URL.nonempty (URL.netloc (URL.urlsplit self)) = true ->
  URLObject.relative is_ipv6 self other = Ok r ->
  URL.urlsplit_raises is_ipv6 other = false /\
  (URL.nonempty (URL.scheme (URL.urlsplit other)) = true -> r = other) /\
  (URL.nonempty (URL.scheme (URL.urlsplit other)) = false ->
   URL.urlsplit_raises is_ipv6 self = false /\
   URL.scheme (URL.urlsplit r) = URL.scheme (URL.urlsplit self) /\
   URL.netloc (URL.urlsplit r) =
     if URL.nonempty (URL.netloc (URL.urlsplit other))
     then URL.netloc (URL.urlsplit other)
     else URL.netloc (URL.urlsplit self)).
Proof.
  intros Ha Hn H. apply relative_unfold in H as [Hro H].
  pose proof (absolute_valid_scheme self Ha) as Hv.
  split; [exact Hro|].
  destruct (URL.nonempty (URL.scheme (URL.urlsplit other))).
  { split; [intros _; exact H | discriminate]. }
  split; [discriminate|]. intros _.
  destruct H as [Hrs H]. split; [exact Hrs|]. cbv zeta in H.
  destruct (rebased_origin self other Ha Hn) as (Hau & Hsu & Hnu).
  assert (Hnn : URL.nonempty
                  (URL.netloc
                     (URL.urlsplit
                        (URL.with_netloc
                           (URL.with_scheme other
                              (URL.scheme (URL.urlsplit self)))
                           (URL.netloc (URL.urlsplit self))))) = true)
    by (rewrite Hnu; exact Hn).
  destruct (URL.nonempty (URL.netloc (URL.urlsplit other))) eqn:Hno.
  { subst r. split.
    - apply with_scheme_scheme, Hv.
    - apply with_scheme_netloc; assumption. }
  destruct (URL.nonempty (URL.path (URL.urlsplit other))).
  { destruct H as (_ & _ & p & _ & ->).
    destruct (with_path_origin _ p Hau Hnn) as (-> & ->).
    split; assumption. }
  destruct (with_path_origin _ (URL.path (URL.urlsplit self)) Hau Hnn)
    as (Hsp & Hnp).
  destruct (URL.nonempty (URL.query (URL.urlsplit other))).
  { destruct H as (_ & _ & ->). rewrite Hsp, Hnp. split; assumption. }
  destruct (URL.nonempty (URL.fragment (URL.urlsplit other))).
  { destruct H as (_ & _ & _ & ->).
    destruct (with_query_origin
                (URL.with_path
                   (URL.with_netloc
                      (URL.with_scheme other (URL.scheme (URL.urlsplit self)))
                      (URL.netloc (URL.urlsplit self)))
                   (URL.path (URL.urlsplit self)))
                (URL.query (URL.urlsplit self))) as (-> & ->).
    - unfold URL.is_absolute. rewrite Hsp, Hsu. exact Ha.
    - rewrite Hnp. exact Hnn.
    - rewrite Hsp, Hnp. split; assumption. }
  subst r. apply without_fragment_origin; assumption.
Qed.

(** ** Outgoing requests *)

Lemma request_ok (is_ipv6 : string -> bool) (self : OAuth2Session)
    (method url : string) (r : SuperRequest) :
  URL.nonempty (sess_base_url self) = true ->
  request is_ipv6 self method url = Ok r <->
  exists u, URLObject.relative is_ipv6 (sess_base_url self) url = Ok u
            /\ r = mkSuperRequest method u.
Proof.
  intros Hb. unfold request. rewrite Hb.
  destruct (URLObject.relative is_ipv6 (sess_base_url self) url) as [u|e];
    cbn [mbind outcome_bind].
  - split.
    + intros H. injection H as <-. exists u. split; reflexivity.
    + intros (u' & Hu & ->). injection Hu as ->. reflexivity.
  - split; [discriminate|]. intros (u' & Hu & _). discriminate Hu.
Qed.

(** A URL with a scheme that [urlsplit] accepts resolves to itself. *)
Lemma relative_absolute (is_ipv6 : string -> bool) (self other : string) :
  URL.urlsplit_raises is_ipv6 other = false ->
  URL.is_absolute other = true ->
  URLObject.relative is_ipv6 self other = Ok other.
Proof.
  intros Hr Ha. unfold URLObject.relative, URLObject.split. rewrite Hr.
  cbn [mbind outcome_bind]. unfold URL.is_absolute in Ha. rewrite Ha.
  reflexivity.
Qed.

(** X11. With a base URL that has a scheme and a network location,
    every URL that [OAuth2Session.request] hands on, when it does not
    raise [ValueError], has a scheme: its own when it came with one,
    else the one of the base URL; without a scheme of its own it has the
    network location it came with or, when it came with none, the one of
    the base URL; and resolving the result once more changes nothing. *)
Theorem request_keeps_urls_absolute
    (is_ipv6 : string -> bool)
    (self : OAuth2Session) (method url : string) (r : SuperRequest)
    (Hbase : URL.is_absolute (sess_base_url self) = true)
    (Hhost : URL.nonempty (URL.netloc (URL.urlsplit (sess_base_url self))) = true)
    (Hreq : request is_ipv6 self method url = Ok r) :
  URL.is_absolute (sr_url r) = true /\
  URL.scheme (URL.urlsplit (sr_url r)) =
    (if URL.nonempty (URL.scheme (URL.urlsplit url))
     then URL.scheme (URL.urlsplit url)
     else URL.scheme (URL.urlsplit (sess_base_url self))) /\
  (URL.nonempty (URL.scheme (URL.urlsplit url)) = false ->
   URL.netloc (URL.urlsplit (sr_url r)) =
     if URL.nonempty (URL.netloc (URL.urlsplit url))
     then URL.netloc (URL.urlsplit url)
     else URL.netloc (URL.urlsplit (sess_base_url self))) /\
  request is_ipv6 self method (sr_url r) = Ok r.
Proof.
  pose proof (absolute_nonempty _ Hbase) as Hne.
  apply (request_ok is_ipv6 self method url r Hne) in Hreq
    as (u & Hrel & ->). cbn [sr_url].
  destruct (relative_ok is_ipv6 _ _ _ Hbase Hhost Hrel) as (Hro & Hs & Hns).
  assert (Hsch : URL.scheme (URL.urlsplit u) =
                 (if URL.nonempty (URL.scheme (URL.urlsplit url))
                  then URL.scheme (URL.urlsplit url)
                  else URL.scheme (URL.urlsplit (sess_base_url self)))).
  { destruct (URL.nonempty (URL.scheme (URL.urlsplit url))) eqn:Hu.
    - rewrite (Hs eq_refl). reflexivity.
    - apply (Hns eq_refl). }
  assert (Habs : URL.is_absolute u = true).
  { unfold URL.is_absolute. rewrite Hsch.
    destruct (URL.nonempty (URL.scheme (URL.urlsplit url))) eqn:Hu;
      [exact Hu | exact Hbase]. }
  assert (Hru : URL.urlsplit_raises is_ipv6 u = false).
  { destruct (URL.nonempty (URL.scheme (URL.urlsplit url))) eqn:Hu.
    - rewrite (Hs eq_refl). exact Hro.
    - destruct (Hns eq_refl) as (Hrs & _ & Hnl).
      unfold URL.urlsplit_raises in *. rewrite Hnl.
      destruct (URL.nonempty (URL.netloc (URL.urlsplit url)));
        assumption. }
  split; [exact Habs|]. split; [exact Hsch|]. split.
  - intros Hu. apply (Hns Hu).
  - apply (request_ok is_ipv6 self method u _ Hne). exists u.
    split; [|reflexivity]. apply relative_absolute; assumption.
Qed.

(** X12. With a base URL that has a scheme and a network location, a
    request URL in which [urlsplit] finds neither is handed on, when
    [request] does not raise [ValueError], with the scheme and the
    network location of the base URL: a relative URL cannot leave the
    provider's origin. *)
Theorem request_relative_stays_on_base_origin
    (is_ipv6 : string -> bool)
    (self : OAuth2Session) (method url : string) (r : SuperRequest)
    (Hbase : URL.is_absolute (sess_base_url self) = true)
    (Hhost : URL.nonempty (URL.netloc (URL.urlsplit (sess_base_url self))) = true)
    (Hscheme : URL.nonempty (URL.scheme (URL.urlsplit url)) = false)
    (Hnetloc : URL.nonempty (URL.netloc (URL.urlsplit url)) = false)
    (Hreq : request is_ipv6 self method url = Ok r) :
  URL.scheme (URL.urlsplit (sr_url r))
    = URL.scheme (URL.urlsplit (sess_base_url self)) /\
  URL.netloc (URL.urlsplit (sr_url r))
    = URL.netloc (URL.urlsplit (sess_base_url self)).
Proof.
  pose proof (absolute_nonempty _ Hbase) as Hne.
  apply (request_ok is_ipv6 self method url r Hne) in Hreq
    as (u & Hrel & ->). cbn [sr_url].
  destruct (relative_ok is_ipv6 _ _ _ Hbase Hhost Hrel) as (_ & _ & Hns).
  destruct (Hns Hscheme) as (_ & Hs & Hn). rewrite Hnetloc in Hn.
  split; assumption.
Qed.

(** ** The authorization response *)


(** *** Paths and their segments *)

























(** *** [resolve_dots] *)






(** *** [resolve_path] on paths of plain segments *)

Lemma last_app_singleton {A : Type} (l : list A) (x : A) :
  last (l ++ [x]) = Some x.
Proof. apply last_snoc. Qed.







(** *** [urljoin] on paths of plain segments *)












(** ** [OAuth2Session.request] *)




(** ** The exchange of [authorized] *)

Section ExchangeUrlFacts.

Variable url_for : UrlForArgs -> string.
Variable token_response : FetchTokenArgs -> outcome Token.
Variable oauth_authorized_receivers : option (list (Token -> PyVal)).

Local Abbreviation authorized_ :=
  (authorized url_for token_response oauth_authorized_receivers).


End ExchangeUrlFacts.


(** ** The test application, continued *)

Local Abbreviation demo_login :=
  (login Demo.url_for Demo.generate_token Demo.prepare_request_uri).
Local Abbreviation demo_authorized :=
  (authorized Demo.url_for Demo.token_response (Some [Demo.approve])).
Local Abbreviation demo_authorized_vetoed :=
  (authorized Demo.url_for Demo.token_response
     (Some [Demo.approve; Demo.reject])).


Lemma login_touches_no_token_witness :
  token_storage (demo_login Demo.bp Demo.login_request DemoMore.w_stored).2
    = Some Demo.SPEC_TOKEN /\
  fetch_calls (trace (demo_login Demo.bp Demo.login_request DemoMore.w_stored).2)
    = [] /\
  session_sets (trace (demo_login Demo.bp Demo.login_request DemoMore.w_stored).2)
    = [("test-service_oauth_state", "xs")].
Proof.
  destruct (login_touches_no_token
              Demo.url_for Demo.generate_token Demo.prepare_request_uri
              Demo.bp Demo.login_request DemoMore.w_stored eq_refl)
    as (Hstore & _ & _ & _ & Hfetch & _ & _ & Hsets).
  split; [exact Hstore|]. split; [exact Hfetch | exact Hsets].
Defined.

Lemma flows_do_not_collide_witness :
  flask_session
    (demo_login Demo.bp Demo.login_request DemoMore.w_both_pending).2
    !! "other-service_oauth_state" = Some "other-string" /\
  flask_session
    (demo_authorized Demo.bp Demo.callback_request DemoMore.w_both_pending).2
    !! "other-service_oauth_state" = Some "other-string".
Proof.
  assert (Hname : bp_name Demo.bp <> bp_name DemoMore.bp_other)
    by discriminate.
  destruct (flows_do_not_collide
              Demo.url_for Demo.token_response Demo.generate_token
              Demo.prepare_request_uri (Some [Demo.approve])
              Demo.bp DemoMore.bp_other Demo.callback_request
              DemoMore.w_both_pending Hname) as (_ & _ & Hauth).
  destruct (flows_do_not_collide
              Demo.url_for Demo.token_response Demo.generate_token
              Demo.prepare_request_uri (Some [Demo.approve])
              Demo.bp DemoMore.bp_other Demo.login_request
              DemoMore.w_both_pending Hname) as (_ & Hlogin & _).
  split; [exact (eq_trans Hlogin eq_refl) | exact (eq_trans Hauth eq_refl)].
Defined.

Lemma authorized_exchange_failure_propagates_witness :
  (authorized Demo.url_for Demo.failing_token_response (Some [Demo.approve])
     Demo.bp Demo.callback_request Demo.w_pending).1
    = Raise (ExchangeError "invalid_grant") /\
  token_storage
    (authorized Demo.url_for Demo.failing_token_response (Some [Demo.approve])
       Demo.bp Demo.callback_request Demo.w_pending).2 = None /\
  flask_session
    (authorized Demo.url_for Demo.failing_token_response (Some [Demo.approve])
       Demo.bp Demo.callback_request Demo.w_pending).2
    !! "test-service_oauth_state" = None.
Proof.
  destruct (authorized_exchange_failure_propagates
              Demo.url_for Demo.failing_token_response (Some [Demo.approve])
              Demo.bp Demo.callback_request Demo.w_pending
              "random-string" (ExchangeError "invalid_grant")
              eq_refl eq_refl eq_refl)
    as (Hres & _ & _ & Hstore & _ & Hgone & _).
  split; [exact Hres|]. split; [exact Hstore | exact Hgone].
Defined.


Lemma authorized_without_receivers_persists_witness :
  token_storage
    (authorized Demo.url_for Demo.token_response None
       Demo.bp Demo.callback_request Demo.w_pending).2
    = Some Demo.FAKE_OAUTH2_TOKEN /\
  token_storage
    (authorized Demo.url_for Demo.token_response (Some [])
       Demo.bp Demo.callback_request Demo.w_pending).2
    = Some Demo.FAKE_OAUTH2_TOKEN.
Proof.
  split.
  - exact (proj1 (authorized_without_receivers_persists
                    Demo.url_for Demo.token_response None
                    Demo.bp Demo.callback_request Demo.w_pending
                    "random-string" Demo.FAKE_OAUTH2_TOKEN
                    (or_introl eq_refl) eq_refl eq_refl eq_refl)).
  - exact (proj1 (authorized_without_receivers_persists
                    Demo.url_for Demo.token_response (Some [])
                    Demo.bp Demo.callback_request Demo.w_pending
                    "random-string" Demo.FAKE_OAUTH2_TOKEN
                    (or_intror eq_refl) eq_refl eq_refl eq_refl)).
Defined.

Lemma state_source_is_invariant_witness :
  state_source_agrees Demo.bp_fixed
    (demo_login Demo.bp_fixed Demo.login_request
       (init_world Demo.args_fixed)).2 /\
  state_source_agrees Demo.bp
    (demo_authorized Demo.bp Demo.callback_request
       (demo_login Demo.bp Demo.login_request (init_world Demo.args)).2).2.
Proof.
  pose proof (state_source_is_invariant
                Demo.url_for Demo.token_response Demo.generate_token
                Demo.prepare_request_uri (Some [Demo.approve]))
    as (Hinit & Hkeep).
  split.
  - exact (proj1 (Hkeep Demo.bp_fixed Demo.login_request _ None
                    (Hinit Demo.args_fixed))).
  - exact (proj1 (proj2 (Hkeep Demo.bp Demo.callback_request _ None
             (proj1 (Hkeep Demo.bp Demo.login_request _ None
                       (Hinit Demo.args)))))).
Defined.

Lemma client_id_changes_only_by_setter_witness :
  client_id (demo_login Demo.bp Demo.login_request Demo.w_pending).2
    = Some "client_id" /\
  client_id (demo_authorized Demo.bp Demo.callback_request Demo.w_pending).2
    = Some "client_id".
Proof.
  split.
  - exact (proj1 (proj1 (proj2 (proj2 (client_id_changes_only_by_setter
             Demo.url_for Demo.token_response Demo.generate_token
             Demo.prepare_request_uri (Some [Demo.approve])
             Demo.bp Demo.login_request Demo.w_pending eq_refl))))).
  - exact (proj1 (proj1 (proj2 (proj2 (proj2
             (client_id_changes_only_by_setter
                Demo.url_for Demo.token_response Demo.generate_token
                Demo.prepare_request_uri (Some [Demo.approve])
                Demo.bp Demo.callback_request Demo.w_pending eq_refl)))))).
Defined.

Lemma load_token_after_grant_witness :
  sess_token
    (session (load_token
                (demo_authorized Demo.bp Demo.callback_request
                   DemoMore.w_stored).2).2)
    = Some Demo.FAKE_OAUTH2_TOKEN /\
  sess_token
    (session (demo_authorized_vetoed Demo.bp Demo.callback_request
                DemoMore.w_stored).2)
    = Some Demo.FAKE_OAUTH2_TOKEN /\
  sess_token
    (session (load_token
                (demo_authorized_vetoed Demo.bp Demo.callback_request
                   DemoMore.w_stored).2).2)
    = Some Demo.SPEC_TOKEN.
Proof.
  destruct (load_token_after_grant
              Demo.url_for Demo.token_response (Some [Demo.approve])
              Demo.bp Demo.callback_request DemoMore.w_stored
              "random-string" Demo.FAKE_OAUTH2_TOKEN eq_refl eq_refl eq_refl)
    as (_ & Hok & _).
  destruct (load_token_after_grant
              Demo.url_for Demo.token_response
              (Some [Demo.approve; Demo.reject])
              Demo.bp Demo.callback_request DemoMore.w_stored
              "random-string" Demo.FAKE_OAUTH2_TOKEN eq_refl eq_refl eq_refl)
    as (Hlive & _ & Hveto).
  split; [|split].
  - exact (proj1 (Hok (approve_never_vetoes Demo.FAKE_OAUTH2_TOKEN))).
  - exact Hlive.
  - exact (proj1 (Hveto (reject_vetoes Demo.FAKE_OAUTH2_TOKEN))).
Defined.

Lemma authorized_grant_events_in_order_witness :
  trace (demo_authorized Demo.bp Demo.callback_request Demo.w_pending).2
    = [SessionDel "test-service_oauth_state";
       FetchToken (fetch_args Demo.bp Demo.callback_request "random-string");
       OAuthAuthorizedSent Demo.FAKE_OAUTH2_TOKEN;
       TokenSet Demo.FAKE_OAUTH2_TOKEN].
Proof.
  destruct (authorized_grant_events_in_order
              Demo.url_for Demo.token_response (Some [Demo.approve])
              Demo.bp Demo.callback_request Demo.w_pending
              "random-string" Demo.FAKE_OAUTH2_TOKEN eq_refl eq_refl eq_refl)
    as (rest & Htr & _ & Hok).
  rewrite (Hok (approve_never_vetoes Demo.FAKE_OAUTH2_TOKEN)) in Htr.
  exact Htr.
Defined.

Lemma request_keeps_urls_absolute_witness :
  request DemoMore.is_ipv6_address DemoMore.api_session
          "GET" " //cdn.example.net/logo.png"
    = Ok (mkSuperRequest "GET" "https://cdn.example.net/logo.png") /\
  URL.is_absolute "https://cdn.example.net/logo.png" = true /\
  URL.netloc (URL.urlsplit "https://cdn.example.net/logo.png")
    = "cdn.example.net" /\
  request DemoMore.is_ipv6_address DemoMore.api_session
          "GET" "https://cdn.example.net/logo.png"
    = Ok (mkSuperRequest "GET" "https://cdn.example.net/logo.png").
Proof.
  destruct (request_keeps_urls_absolute
              DemoMore.is_ipv6_address DemoMore.api_session
              "GET" " //cdn.example.net/logo.png"
              (mkSuperRequest "GET" "https://cdn.example.net/logo.png")
              eq_refl eq_refl eq_refl) as (Habs & _ & Hnetloc & Hagain).
  split; [reflexivity|]. split; [exact Habs|].
  split; [exact (Hnetloc eq_refl) | exact Hagain].
Defined.

Lemma request_relative_stays_on_base_origin_witness :
  request DemoMore.is_ipv6_address DemoMore.api_session "GET" "1a:b"
    = Ok (mkSuperRequest "GET" "https://api.example.com/v1/1a:b") /\
  URL.scheme (URL.urlsplit "https://api.example.com/v1/1a:b") = "https" /\
  URL.netloc (URL.urlsplit "https://api.example.com/v1/1a:b")
    = "api.example.com".
Proof.
  split; [reflexivity|].
  exact (request_relative_stays_on_base_origin
           DemoMore.is_ipv6_address DemoMore.api_session "GET" "1a:b"
           (mkSuperRequest "GET" "https://api.example.com/v1/1a:b")
           eq_refl eq_refl eq_refl eq_refl eq_refl).
Defined.


